(** * ECS Fargate constructs: validation, default resolution and construct tree

    A shallow embedding of
    [lib/constructs/MultiServiceECSFargateLoadBalancedConstruct.ts] and
    [lib/constructs/SingleServicePrivateECSFargateConstruct.ts].

    Conventions of the embedding.
    - A TypeScript [number] is an integer [Z]: the embedding covers integral
      ports, counts, seconds and percentages; fractions, [NaN] and the
      infinities are outside it.
    - A TypeScript [string] is a [string]; its [length] is the number of
      characters (code units for ASCII text).
    - An optional property [x?: T] is an [option T]; an object used as a
      dictionary ([{ [key: string]: string }]) is a [gmap string string].
    - A constructor body is a computation over the children of [this]: every
      [new X(scope, id, props)] registers a child [id] under [scope], and the
      [constructs] base class throws when [scope] already has a child [id].
      Checks that the CDK resource classes perform on individual property
      values are not part of this repository and are not modelled: a
      [Duration] must not be negative, a listener rule priority must be at
      least 1, and the minimum capacity of a scalable target must not exceed
      its maximum. A statement that depends on such a check assumes it.
      What a resource class creates on its own, such as the security group
      of the load balancer and the rules that an open listener adds to it,
      is not recorded. The [constructs] library compares the ids of the
      children of a scope after it has replaced each "/" by "--"
      ([Topology.sanitizeId]); [Cdk.new] compares them as written, which is
      the same for ids without "/". *)

From stdpp Require Import base strings gmap list pretty.
From Stdlib Require Import ZArith.

Local Open Scope string_scope.
Local Open Scope list_scope.
Local Open Scope Z_scope.

(** ** JavaScript truthiness and the [||] operator *)

Module JS.

(** [n || d] on numbers: [0] is falsy. *)
Definition or_number (n : option Z) (d : Z) : Z :=
  match n with
  | Some v => if v =? 0 then d else v
  | None => d
  end.

(** [s || d] on strings: the empty string is falsy. *)
Definition or_string (s : option string) (d : string) : string :=
  match s with
  | Some v => if decide (v = "") then d else v
  | None => d
  end.

(** [o || d] on objects: every object, even an empty one, is truthy. *)
Definition or_object {A : Type} (o : option A) (d : A) : A :=
  match o with
  | Some v => v
  | None => d
  end.

(** Object spread [{ ...base, ...over }]: later properties win. *)
Definition spread (base over : gmap string string) : gmap string string :=
  over ∪ base.

(** Template-literal conversion [`${n}`] of an integer. *)
Definition number_to_string (n : Z) : string := pretty n.

Definition dquote : string := String (Ascii.ascii_of_nat 34) EmptyString.

(** [JSON.stringify] of a flat object of string properties. *)
Fixpoint stringify_members (kvs : list (string * string)) : string :=
  match kvs with
  | [] => ""
  | [(k, v)] => dquote +:+ k +:+ dquote +:+ ":" +:+ dquote +:+ v +:+ dquote
  | (k, v) :: rest =>
      dquote +:+ k +:+ dquote +:+ ":" +:+ dquote +:+ v +:+ dquote +:+ ","
      +:+ stringify_members rest
  end.

Definition JSON_stringify (kvs : list (string * string)) : string :=
  "{" +:+ stringify_members kvs +:+ "}".

End JS.

(** ** A fragment of zod *)

Module Zod.

Inductive ZodIssueCode :=
| too_small | too_big | invalid_string | invalid_union | custom.

(** [message] is the message given in the schema, when there is one. *)
Record ZodIssue := {
  code : ZodIssueCode;
  path : list string;
  message : option string;
}.

Definition Schema (A : Type) := list string → A → list ZodIssue.

Definition check (ok : bool) (c : ZodIssueCode) (p : list string)
    (msg : option string) : list ZodIssue :=
  if ok then [] else [{| code := c; path := p; message := msg |}].

(** [z.string().min(n, msg)] *)
Definition string_min (n : nat) (msg : option string) : Schema string :=
  λ p s, check (n <=? String.length s)%nat too_small p msg.

(** [.startsWith(prefix)] *)
Definition startsWith (pre : string) : Schema string :=
  λ p s, check (String.prefix pre s) invalid_string p None.

(** [z.number().min(lo, msg)] and [.max(hi, msg)] *)
Definition number_min (lo : Z) (msg : option string) : Schema Z :=
  λ p v, check (lo <=? v) too_small p msg.

Definition number_max (hi : Z) (msg : option string) : Schema Z :=
  λ p v, check (v <=? hi) too_big p msg.

(** [z.number()], [z.string()], [z.record(z.string())], [z.nativeEnum(E)]:
    satisfied by every value of the corresponding type. *)
Definition any {A : Type} : Schema A := λ _ _, [].

(** [z.union([z.literal(a), z.literal(b), ...])] *)
Definition literals (allowed : list Z) : Schema Z :=
  λ p v, check (bool_decide (v ∈ allowed)) invalid_union p None.

(** Two checks chained on one value. *)
Definition both {A : Type} (s1 s2 : Schema A) : Schema A :=
  λ p v, s1 p v ++ s2 p v.

(** [.optional()] *)
Definition optional {A : Type} (s : Schema A) : Schema (option A) :=
  λ p o, match o with Some v => s p v | None => [] end.

(** A property [key] of a [z.object]. *)
Definition prop {A B : Type} (key : string) (get : A → B) (s : Schema B)
    : Schema A :=
  λ p v, s (p ++ [key]) (get v).

(** [z.object({ ... })]: the issues of all properties, in order. *)
Definition object {A : Type} (props : list (Schema A)) : Schema A :=
  λ p v, concat ((λ s, s p v) <$> props).

(** [z.array(elem)]: the issues of all elements, by index. *)
Definition array {A : Type} (elem : Schema A) : Schema (list A) :=
  λ p l, concat (imap (λ i x, elem (p ++ [pretty i]) x) l).

(** [z.array(elem).min(n, msg)] *)
Definition array_min {A : Type} (elem : Schema A) (n : nat)
    (msg : option string) : Schema (list A) :=
  λ p l, check (n <=? length l)%nat too_small p msg ++ array elem p l.

(** Whether a value passes a schema does not depend on where it sits. *)
Definition unlocated {A : Type} (s : Schema A) : Prop :=
  ∀ p q v, s p v = [] → s q v = [].

End Zod.

(** ** Input properties shared by the two constructs *)

(** [RemovalPolicy] of [aws-cdk-lib]. *)
Inductive RemovalPolicy :=
| DESTROY | RETAIN | SNAPSHOT | RETAIN_ON_UPDATE_OR_DELETE.

(** [RetentionDays] of [aws-cdk-lib/aws-logs]. *)
Inductive RetentionDays :=
| ONE_DAY | THREE_DAYS | FIVE_DAYS | ONE_WEEK | TWO_WEEKS | ONE_MONTH
| TWO_MONTHS | THREE_MONTHS | FOUR_MONTHS | FIVE_MONTHS | SIX_MONTHS
| ONE_YEAR | THIRTEEN_MONTHS | EIGHTEEN_MONTHS | TWO_YEARS | THREE_YEARS
| FIVE_YEARS | SIX_YEARS | SEVEN_YEARS | EIGHT_YEARS | NINE_YEARS
| TEN_YEARS | INFINITE.

(** [ec2.IVpc]: [isVpc] tells whether the object is an instance of the
    [ec2.Vpc] class (an imported network is an [IVpc] but not a [Vpc]). *)
Module IVpc.
Record t := { isVpc : bool; vpcCidrBlock : string }.
End IVpc.

Module Image.
Record t := {
  path : string;
  name : option string;
  labels : option (gmap string string);
}.
End Image.

Module HealthCheckConfig.
Record t := {
  path : string;
  intervalSeconds : option Z;
  timeoutSeconds : option Z;
  retries : option Z;
  startPeriodSeconds : option Z;
}.
End HealthCheckConfig.

Module FargateConfig.
Record t := { cpu : option Z; memoryLimitMiB : option Z }.
End FargateConfig.

Module LogGroupConfig.
Record t := {
  logGroupName : string;
  removalPolicy : RemovalPolicy;
  retention : RetentionDays;
}.
End LogGroupConfig.

Module AutoScalingConfig.
Record t := {
  minCapacity : Z;
  maxCapacity : Z;
  targetCpuUtilization : option Z;
  targetMemoryUtilization : option Z;
}.
End AutoScalingConfig.

(** ** The construct tree *)

Module Cdk.

(** A construct is named by the ids on the way from [this] down to it. *)
Definition Path := list string.

Inductive SubnetType := PUBLIC | PRIVATE_WITH_EGRESS | PRIVATE_ISOLATED.

(** A property value: a literal, or an attribute of another construct that
    the provisioning backend fills in. *)
Inductive Value :=
| Literal (s : string)
| Attribute (source : Path) (attr : string).

Inductive Peer :=
| SecurityGroupOf (loadBalancer : Path)
| Ipv4 (cidr : string).

Inductive ListenerAction :=
| fixedResponse (status : Z) (contentType messageBody : string)
| redirect (protocol port : string).

Record IngressRule := {
  peer : Peer;
  tcp : Z;
  ruleDescription : string;
}.

Record ContainerHealthCheck := {
  command : list string;
  interval : Z;
  timeout : Z;
  retries : Z;
  startPeriod : Z;
}.

Record ContainerDefinitionOptions := {
  containerName : string;
  imageAsset : string;
  imageFile : string;
  imagePlatform : string;
  environment : gmap string string;
  logGroup : Path;
  streamPrefix : string;
  portMappings : list Z;
  dockerLabels : gmap string string;
  healthCheck : ContainerHealthCheck;
}.

Record FargateServiceProps := {
  assignPublicIp : bool;
  cluster : Path;
  desiredCount : Z;
  securityGroups : list Path;
  serviceName : string;
  taskDefinition : Path;
  vpcSubnets : SubnetType;
}.

Record TargetGroupHealthCheck := {
  tgPath : string;
  tgInterval : Z;
  tgTimeout : Z;
  healthyHttpCodes : string;
}.

Record AddApplicationTargetsProps := {
  port : Z;
  targets : list Path;
  targetGroupName : string;
  protocol : string;
  pathPatterns : list string;
  tgHealthCheck : TargetGroupHealthCheck;
  priority : Z;
}.

Inductive Resource :=
| HostedZone (hostedZoneId zoneName : string)
| Certificate (domainName : string) (hostedZone : Path)
    (subjectAlternativeNames : list string)
| Cluster (clusterName : string)
| ApplicationLoadBalancer (internetFacing : bool) (loadBalancerName : string)
    (subnets : SubnetType)
| ARecord (zone : Path) (aliasTarget : Path) (recordName : string)
| StringParameter (parameterName : string) (stringValue : Value)
| ApplicationListener (listenerPort : Z) (certificates : list Path)
    (sslPolicy : option string) (defaultAction : ListenerAction)
| FargateTaskDefinition (memoryLimitMiB cpu : Z) (family : string)
    (operatingSystemFamily cpuArchitecture : string)
| LogGroup (props : LogGroupConfig.t)
| ContainerDefinition (props : ContainerDefinitionOptions)
| SecurityGroup (allowAllOutbound : bool) (description : string)
| FargateService (props : FargateServiceProps)
| ApplicationTargetGroup (props : AddApplicationTargetsProps)
| ScalableTaskCount (minCapacity maxCapacity : Z)
| CpuUtilizationScaling (targetUtilizationPercent : Z)
| MemoryUtilizationScaling (targetUtilizationPercent : Z).

(** What a constructor leaves behind: child constructs, the ingress rules
    added to security groups with [addIngressRule], and the tags put on
    constructs with [cdk.Tags.of(c).add(key, value)]. *)
Inductive Entry :=
| Child (at_ : Path) (r : Resource)
| Ingress (on : Path) (rule : IngressRule)
| Tag (on : Path) (key value : string).

Definition Tree := list Entry.

Definition child_path (e : Entry) : option Path :=
  match e with
  | Child p _ => Some p
  | Ingress _ _ | Tag _ _ _ => None
  end.

Definition children (t : Tree) : list Path := omap child_path t.

Inductive Exception :=
| ZodError (issues : list Zod.ZodIssue)
| Error (message : string)
(** The [Error] of [Node.addChild]: "There is already a Construct with
    name ...". *)
| DuplicateConstruct (scope : Path) (id : string).

(** A constructor body: it may throw, and what it has built so far stays
    in the tree when it does. *)
Definition M (A : Type) : Type := Tree → (Exception + A) * Tree.

Definition run {A : Type} (c : M A) (t : Tree) : (Exception + A) * Tree :=
  c t.

Definition throw {A : Type} (e : Exception) : M A := λ t, (inl e, t).

#[export] Instance M_ret : MRet M := λ A x t, (inr x, t).

#[export] Instance M_bind : MBind M := λ A B f c t,
  match c t with
  | (inr x, t') => f x t'
  | (inl e, t') => (inl e, t')
  end.

(** [try { c } catch (error) { h error }] *)
Definition try_catch {A : Type} (c : M A) (h : Exception → M A) : M A :=
  λ t, match c t with
       | (inl e, t') => h e t'
       | ok => ok
       end.

(** [new X(scope, id, props)], and the methods that create a construct under
    an existing one ([addListener], [addContainer], [addTargets], ...); the
    result is the new construct. *)
Definition new (scope : Path) (id : string) (r : Resource) : M Path :=
  λ t, if bool_decide (scope ++ [id] ∈ children t)
       then (inl (DuplicateConstruct scope id), t)
       else (inr (scope ++ [id]), t ++ [Child (scope ++ [id]) r]).

(** [securityGroup.addIngressRule(peer, ec2.Port.tcp(port), description)] *)
Definition addIngressRule (sg : Path) (p : Peer) (port : Z)
    (description : string) : M unit :=
  λ t, (inr tt, t ++ [Ingress sg {| peer := p; tcp := port;
                                    ruleDescription := description |}]).

(** [cdk.Tags.of(c).add(key, value)] *)
Definition Tags_add (c : Path) (key value : string) : M unit :=
  λ t, (inr tt, t ++ [Tag c key value]).

(** [schema.parse(value)] *)
Definition parse {A : Type} (schema : Zod.Schema A) (value : A) : M unit :=
  match schema [] value with
  | [] => mret tt
  | issues => throw (ZodError issues)
  end.

(** [for (const x of l) { body x }] *)
Fixpoint for_of {A : Type} (l : list A) (body : A → M unit) : M unit :=
  match l with
  | [] => mret tt
  | x :: rest => body x ;; for_of rest body
  end.

(** [this], seen from inside the constructor. *)
Definition this : Path := [].

(** *** Properties of constructor bodies *)

(** A body only ever appends to the tree, whether it returns or throws. *)
Definition extends {A : Type} (c : M A) : Prop :=
  ∀ t, ∃ added, snd (run c t) = t ++ added.

(** Two outcomes agree when both throw the same exception, or both return
    the same value and leave the same construct ids behind. *)
Definition agree {A : Type} (o1 o2 : (Exception + A) * Tree) : Prop :=
  match o1, o2 with
  | (inl e1, _), (inl e2, _) => e1 = e2
  | (inr x1, t1), (inr x2, t2) => x1 = x2 ∧ children t1 = children t2
  | _, _ => False
  end.

(** Two bodies are alike when, started on trees with the same construct
    ids, their outcomes agree: they may differ only in the properties they
    give to the resources. *)
Definition alike {A : Type} (c1 c2 : M A) : Prop :=
  ∀ t1 t2, children t1 = children t2 → agree (run c1 t1) (run c2 t2).

(** Kinds of resources. *)

Definition is_certificate (r : Resource) : bool :=
  match r with Certificate _ _ _ => true | _ => false end.

Definition is_dns (r : Resource) : bool :=
  match r with HostedZone _ _ | ARecord _ _ _ => true | _ => false end.

Definition is_load_balancing (r : Resource) : bool :=
  match r with
  | ApplicationLoadBalancer _ _ _ | ApplicationListener _ _ _ _
  | ApplicationTargetGroup _ => true
  | _ => false
  end.

Definition is_cluster (r : Resource) : bool :=
  match r with Cluster _ => true | _ => false end.

Definition is_service (r : Resource) : bool :=
  match r with FargateService _ => true | _ => false end.

Definition resources (t : Tree) : list Resource :=
  omap (λ e, match e with Child _ r => Some r | _ => None end) t.

Definition ingress_rules (t : Tree) : list IngressRule :=
  omap (λ e, match e with Ingress _ rule => Some rule | _ => None end) t.

End Cdk.

(** ** [MultiServiceECSFargateLoadBalancedConstruct.ts] *)

Module Multi.
Import Cdk.

Record ECSServiceConfig := {
  name : string;
  port : Z;
  desiredCount : Z;
  version : string;
  envVariables : gmap string string;
  priority : Z;
  image : Image.t;
  healthCheckConfig : HealthCheckConfig.t;
  fargateConfig : option FargateConfig.t;
  logGroupConfig : option LogGroupConfig.t;
  autoScalingConfig : option AutoScalingConfig.t;
}.

Record MultiServiceECSFargateLoadBalancedConstructProps := {
  appName : string;
  tagEnv : string;
  vpc : IVpc.t;
  hostedZoneId : string;
  domainName : string;
  apiSubdomainName : string;
  ecsServices : list ECSServiceConfig;
}.

(** *** Zod schemas for validation *)

Definition ECSServiceConfigSchema : Zod.Schema ECSServiceConfig :=
  Zod.object [
    Zod.prop "name" name
      (Zod.string_min 1 (Some "Each ECS service must have a name."));
    Zod.prop "port" port
      (Zod.both (Zod.number_min 1 None)
         (Zod.number_max 65535 (Some "Port must be between 1 and 65535.")));
    Zod.prop "desiredCount" desiredCount
      (Zod.number_min 1 (Some "desiredCount must be greater than 0."));
    Zod.prop "version" version
      (Zod.string_min 1 (Some "Version is required for each ECS service."));
    Zod.prop "envVariables" envVariables Zod.any;
    Zod.prop "priority" priority Zod.any;
    Zod.prop "image" image (Zod.object [
      Zod.prop "path" Image.path
        (Zod.string_min 1 (Some "Docker image path is required."));
      Zod.prop "name" Image.name (Zod.optional Zod.any);
      Zod.prop "labels" Image.labels (Zod.optional Zod.any)
    ]);
    Zod.prop "healthCheckConfig" healthCheckConfig (Zod.object [
      Zod.prop "path" HealthCheckConfig.path
        (Zod.both (Zod.string_min 1 (Some "Health check path is required."))
           (Zod.startsWith "/"));
      Zod.prop "intervalSeconds" HealthCheckConfig.intervalSeconds
        (Zod.optional Zod.any);
      Zod.prop "timeoutSeconds" HealthCheckConfig.timeoutSeconds
        (Zod.optional Zod.any);
      Zod.prop "retries" HealthCheckConfig.retries (Zod.optional Zod.any);
      Zod.prop "startPeriodSeconds" HealthCheckConfig.startPeriodSeconds
        (Zod.optional Zod.any)
    ]);
    Zod.prop "fargateConfig" fargateConfig (Zod.optional (Zod.object [
      Zod.prop "cpu" FargateConfig.cpu
        (Zod.optional (Zod.literals [256; 512; 1024; 2048; 4096]));
      Zod.prop "memoryLimitMiB" FargateConfig.memoryLimitMiB
        (Zod.optional (Zod.literals
           [512; 1024; 2048; 3072; 4096; 5120; 6144; 7168; 8192; 16384;
            30720]))
    ]));
    Zod.prop "logGroupConfig" logGroupConfig (Zod.optional (Zod.object [
      Zod.prop "logGroupName" LogGroupConfig.logGroupName
        (Zod.string_min 1 (Some "Log group name is required."));
      Zod.prop "removalPolicy" LogGroupConfig.removalPolicy Zod.any;
      Zod.prop "retention" LogGroupConfig.retention Zod.any
    ]));
    Zod.prop "autoScalingConfig" autoScalingConfig
      (Zod.optional (Zod.object [
        Zod.prop "minCapacity" AutoScalingConfig.minCapacity
          (Zod.number_min 1 (Some "Minimum capacity must be at least 1."));
        Zod.prop "maxCapacity" AutoScalingConfig.maxCapacity
          (Zod.number_min 1 (Some "Maximum capacity must be at least 1."));
        Zod.prop "targetCpuUtilization"
          AutoScalingConfig.targetCpuUtilization
          (Zod.optional
             (Zod.both (Zod.number_min 1 None) (Zod.number_max 100 None)));
        Zod.prop "targetMemoryUtilization"
          AutoScalingConfig.targetMemoryUtilization
          (Zod.optional
             (Zod.both (Zod.number_min 1 None) (Zod.number_max 100 None)))
      ]))
  ].

(** [z.instanceof(ec2.Vpc).refine((vpc) => !!vpc, "VPC is required.")]: the
    refinement runs on an instance only, and an instance is truthy. *)
Definition VpcSchema : Zod.Schema IVpc.t :=
  λ p v, Zod.check (IVpc.isVpc v) Zod.custom p None.

Definition MultiServiceECSFargateLoadBalancedConstructPropsSchema
    : Zod.Schema MultiServiceECSFargateLoadBalancedConstructProps :=
  Zod.object [
    Zod.prop "appName" appName
      (Zod.string_min 3 (Some "appName must be at least 3 characters."));
    Zod.prop "tagEnv" tagEnv
      (Zod.string_min 1 (Some "tagEnv is required and cannot be empty."));
    Zod.prop "vpc" vpc VpcSchema;
    Zod.prop "hostedZoneId" hostedZoneId
      (Zod.string_min 1 (Some "hostedZoneId is required."));
    Zod.prop "domainName" domainName
      (Zod.string_min 1 (Some "domainName is required."));
    Zod.prop "apiSubdomainName" apiSubdomainName
      (Zod.string_min 1 (Some "apiSubdomainName is required."));
    Zod.prop "ecsServices" ecsServices
      (Zod.array_min ECSServiceConfigSchema 1
         (Some "At least one ECS service configuration is required."))
  ].

(** *** The constructor *)

(** The constants computed for one [ecsService] inside the loop. *)

Definition environmentVariables (ecsService : ECSServiceConfig)
    : gmap string string :=
  JS.spread
    {[ "PORT" := JS.number_to_string (port ecsService);
       "SERVICE_NAME" := name ecsService;
       "API_VERSION" := version ecsService ]}
    (envVariables ecsService).

Definition healthCheckPath (ecsService : ECSServiceConfig) : string :=
  HealthCheckConfig.path (healthCheckConfig ecsService).

Definition intervalSeconds (ecsService : ECSServiceConfig) : Z :=
  JS.or_number
    (HealthCheckConfig.intervalSeconds (healthCheckConfig ecsService)) 30.

Definition timeoutSeconds (ecsService : ECSServiceConfig) : Z :=
  JS.or_number
    (HealthCheckConfig.timeoutSeconds (healthCheckConfig ecsService)) 5.

Definition retries (ecsService : ECSServiceConfig) : Z :=
  JS.or_number (HealthCheckConfig.retries (healthCheckConfig ecsService)) 3.

Definition startPeriodSeconds (ecsService : ECSServiceConfig) : Z :=
  JS.or_number
    (HealthCheckConfig.startPeriodSeconds (healthCheckConfig ecsService)) 30.

(** The options passed to [taskDefinition.addContainer]. *)
Definition containerOptions (clusterName : string) (logGroup : Path)
    (ecsService : ECSServiceConfig) : ContainerDefinitionOptions :=
  {| containerName := name ecsService +:+ "-container";
     imageAsset := Image.path (image ecsService);
     imageFile := JS.or_string (Image.name (image ecsService)) "Dockerfile";
     imagePlatform := "linux/arm64";
     environment := environmentVariables ecsService;
     logGroup := logGroup;
     streamPrefix := name ecsService;
     portMappings := [port ecsService];
     dockerLabels :=
       JS.or_object (Image.labels (image ecsService))
         {[ "cluster" := clusterName;
            "service" := name ecsService;
            "version" := version ecsService ]};
     healthCheck :=
       {| command :=
            ["CMD-SHELL";
             "curl -f http://localhost:"
             +:+ JS.number_to_string (port ecsService)
             +:+ healthCheckPath ecsService +:+ " || exit 1"];
          interval := intervalSeconds ecsService;
          timeout := timeoutSeconds ecsService;
          Cdk.retries := retries ecsService;
          startPeriod := startPeriodSeconds ecsService |} |}.

(** The options passed to [loadBalancerhttpsListener.addTargets]. *)
Definition targetsOptions (appName : string) (service : Path)
    (ecsService : ECSServiceConfig) : AddApplicationTargetsProps :=
  {| Cdk.port := port ecsService;
     targets := [service];
     targetGroupName := appName +:+ "-" +:+ name ecsService +:+ "-tg";
     protocol := "HTTP";
     pathPatterns :=
       ["/" +:+ name ecsService +:+ "/" +:+ version ecsService +:+ "/*"];
     tgHealthCheck :=
       {| tgPath := healthCheckPath ecsService;
          tgInterval := intervalSeconds ecsService;
          tgTimeout := timeoutSeconds ecsService;
          healthyHttpCodes := "200-299" |};
     Cdk.priority := priority ecsService |}.

(** [if (target) { scale(id, { targetUtilizationPercent: target }) }] *)
Definition scaleOn (target : option Z) (scalableTarget : Path) (id : string)
    (policy : Z → Resource) : M unit :=
  match target with
  | Some percent =>
      if percent =? 0 then mret tt
      else _ ← new scalableTarget id (policy percent); mret tt
  | None => mret tt
  end.

(** The block "Optional AutoScaling". [service.autoScaleTaskCount] creates
    the scalable target under the service with the id "TaskCount"; the
    policies of [scaleOnCpuUtilization(id, ...)] and
    [scaleOnMemoryUtilization(id, ...)] are created below it under [id]. *)
Definition optionalAutoScaling (appName : string) (service : Path)
    (ecsService : ECSServiceConfig) : M unit :=
  match autoScalingConfig ecsService with
  | Some cfg =>
      scalableTarget ← new service "TaskCount"
        (ScalableTaskCount (AutoScalingConfig.minCapacity cfg)
           (AutoScalingConfig.maxCapacity cfg));
      scaleOn (AutoScalingConfig.targetCpuUtilization cfg) scalableTarget
        (appName +:+ "-" +:+ name ecsService +:+ "-cpu-scaling")
        CpuUtilizationScaling;;
      scaleOn (AutoScalingConfig.targetMemoryUtilization cfg) scalableTarget
        (appName +:+ "-" +:+ name ecsService +:+ "-memory-scaling")
        MemoryUtilizationScaling
  | None => mret tt
  end.

(** The body of the loop "Create the ECS services". [addContainer(id, ...)]
    creates the container under the task definition, and
    [addTargets(id, ...)] the target group with its listener rule under the
    listener, both named after [id] and kept as one child here. The log
    driver and the image asset create no construct of their own at this
    point. The arrays [this.services] and [this.taskDefinitions], to which
    the new service and task definition are pushed, list constructs that are
    in the tree already. *)
Definition createService
    (props : MultiServiceECSFargateLoadBalancedConstructProps)
    (cluster loadBalancer loadBalancerhttpsListener : Path)
    (ecsService : ECSServiceConfig) : M unit :=
  taskDefinition ← new this (name ecsService +:+ "-task-definition")
    (FargateTaskDefinition
       (JS.or_number
          (fargateConfig ecsService ≫= FargateConfig.memoryLimitMiB) 1024)
       (JS.or_number (fargateConfig ecsService ≫= FargateConfig.cpu) 512)
       (name ecsService +:+ "-task-family") "LINUX" "ARM64");
  logGroup ← new this (name ecsService +:+ "-log-group")
    (LogGroup
       (JS.or_object (logGroupConfig ecsService)
          {| LogGroupConfig.logGroupName :=
               name ecsService +:+ "-log-group";
             LogGroupConfig.removalPolicy := DESTROY;
             LogGroupConfig.retention := TWO_WEEKS |}));
  _ ← new taskDefinition (name ecsService +:+ "-container")
    (ContainerDefinition
       (containerOptions (appName props +:+ "-cluster") logGroup
          ecsService));
  ecsSecurityGroup ← new this (name ecsService +:+ "-security-group")
    (SecurityGroup true
       ("Security group for the ECS service " +:+ name ecsService));
  addIngressRule ecsSecurityGroup (SecurityGroupOf loadBalancer)
    (port ecsService) "Allow traffic from the load balancer";;
  service ← new this
    (appName props +:+ "-" +:+ name ecsService +:+ "-service")
    (FargateService
       {| assignPublicIp := true;
          Cdk.cluster := cluster;
          Cdk.desiredCount := desiredCount ecsService;
          securityGroups := [ecsSecurityGroup];
          serviceName := name ecsService;
          Cdk.taskDefinition := taskDefinition;
          vpcSubnets := PRIVATE_WITH_EGRESS |});
  _ ← new loadBalancerhttpsListener
    (appName props +:+ "-" +:+ name ecsService +:+ "-tg")
    (ApplicationTargetGroup
       (targetsOptions (appName props) service ecsService));
  optionalAutoScaling (appName props) service ecsService;;
  Tags_add service "AppName" (appName props);;
  Tags_add service "Environment" (tagEnv props);;
  Tags_add service "ServiceName" (name ecsService).

(** The error thrown in place of a [ZodError]. *)
Definition InvalidInputProperties : Exception :=
  Error
    "Invalid input properties for MultiServiceECSFargateLoadBalancedConstruct.".

(** [region] is [cdk.Stack.of(this).region]. *)
Definition MultiServiceECSFargateLoadBalancedConstruct
    (props : MultiServiceECSFargateLoadBalancedConstructProps)
    (region : string) : M unit :=
  try_catch
    (parse MultiServiceECSFargateLoadBalancedConstructPropsSchema props)
    (λ error, throw InvalidInputProperties);;
  hostedZone ← new this (appName props +:+ "-hosted-zone-lookup")
    (HostedZone (hostedZoneId props) (domainName props));
  certificate ← new this (appName props +:+ "-ssl-certificate")
    (Certificate ("*." +:+ tagEnv props +:+ "." +:+ domainName props)
       hostedZone
       [apiSubdomainName props +:+ "." +:+ domainName props]);
  cluster ← new this (appName props +:+ "-cluster")
    (Cluster (appName props +:+ "-cluster"));
  loadBalancer ← new this
    (appName props +:+ "-" +:+ tagEnv props +:+ "-load-balancer")
    (ApplicationLoadBalancer true
       (appName props +:+ "-" +:+ tagEnv props +:+ "-load-balancer")
       PUBLIC);
  _ ← new this (appName props +:+ "-alias-record-" +:+ region)
    (ARecord hostedZone loadBalancer
       (apiSubdomainName props +:+ "." +:+ domainName props));
  _ ← new this (appName props +:+ "-" +:+ region +:+ "-load-balancer-arn")
    (StringParameter ("/" +:+ appName props +:+ "/load-balancer-arn")
       (Attribute loadBalancer "loadBalancerArn"));
  _ ← new this
    (appName props +:+ "-" +:+ region
     +:+ "-load-balancer-security-group-id")
    (StringParameter
       ("/" +:+ appName props +:+ "/load-balancer-security-group-id")
       (Attribute loadBalancer "securityGroupId"));
  Tags_add loadBalancer "name" (appName props +:+ "-load-balancer");;
  loadBalancerhttpsListener ← new loadBalancer
    (appName props +:+ "-https-listener")
    (ApplicationListener 443 [certificate] (Some "RECOMMENDED_TLS")
       (fixedResponse 404 "application/json"
          (JS.JSON_stringify [("message", "Not Found")])));
  _ ← new loadBalancer (appName props +:+ "-http-listener")
    (ApplicationListener 80 [] None (redirect "HTTPS" "443"));
  for_of (ecsServices props)
    (createService props cluster loadBalancer loadBalancerhttpsListener).

(** *** Variations of an input, to state properties with *)

Definition with_port (p : Z) (s : ECSServiceConfig) : ECSServiceConfig :=
  {| name := name s; port := p; desiredCount := desiredCount s;
     version := version s; envVariables := envVariables s;
     priority := priority s; image := image s;
     healthCheckConfig := healthCheckConfig s;
     fargateConfig := fargateConfig s;
     logGroupConfig := logGroupConfig s;
     autoScalingConfig := autoScalingConfig s |}.

Definition with_priority (z : Z) (s : ECSServiceConfig) : ECSServiceConfig :=
  {| name := name s; port := port s; desiredCount := desiredCount s;
     version := version s; envVariables := envVariables s;
     priority := z; image := image s;
     healthCheckConfig := healthCheckConfig s;
     fargateConfig := fargateConfig s;
     logGroupConfig := logGroupConfig s;
     autoScalingConfig := autoScalingConfig s |}.

(** The same topology with the listener priorities chosen by [f]. *)
Definition with_priorities (f : ECSServiceConfig → Z)
    (props : MultiServiceECSFargateLoadBalancedConstructProps)
    : MultiServiceECSFargateLoadBalancedConstructProps :=
  {| appName := appName props; tagEnv := tagEnv props; vpc := vpc props;
     hostedZoneId := hostedZoneId props; domainName := domainName props;
     apiSubdomainName := apiSubdomainName props;
     ecsServices := (λ s, with_priority (f s) s) <$> ecsServices props |}.

(** The path of the HTTPS listener and of the service of [ecsService]. *)
Definition httpsListenerPath
    (props : MultiServiceECSFargateLoadBalancedConstructProps) : Path :=
  [appName props +:+ "-" +:+ tagEnv props +:+ "-load-balancer";
   appName props +:+ "-https-listener"].

Definition servicePath
    (props : MultiServiceECSFargateLoadBalancedConstructProps)
    (ecsService : ECSServiceConfig) : Path :=
  [appName props +:+ "-" +:+ name ecsService +:+ "-service"].

(** What the block "Optional AutoScaling" adds for [ecsService]. *)
Definition scaling (appName : string) (service : Path)
    (ecsService : ECSServiceConfig) : Tree :=
  match autoScalingConfig ecsService with
  | Some cfg =>
      Child (service ++ ["TaskCount"])
        (ScalableTaskCount (AutoScalingConfig.minCapacity cfg)
           (AutoScalingConfig.maxCapacity cfg))
      :: match AutoScalingConfig.targetCpuUtilization cfg with
         | Some percent =>
             [Child
                (service ++ ["TaskCount";
                   appName +:+ "-" +:+ name ecsService +:+ "-cpu-scaling"])
                (CpuUtilizationScaling percent)]
         | None => []
         end
      ++ match AutoScalingConfig.targetMemoryUtilization cfg with
         | Some percent =>
             [Child
                (service ++ ["TaskCount";
                   appName +:+ "-" +:+ name ecsService
                   +:+ "-memory-scaling"])
                (MemoryUtilizationScaling percent)]
         | None => []
         end
  | None => []
  end.

End Multi.

(** ** [SingleServicePrivateECSFargateConstruct.ts] *)

Module Single.
Import Cdk.

(** The type of [props.service]. *)
Record ECSServiceProps := {
  name : string;
  port : Z;
  desiredCount : Z;
  version : string;
  envVariables : gmap string string;
  image : Image.t;
  healthCheckPath : string;
  fargateConfig : option FargateConfig.t;
  logGroupConfig : option LogGroupConfig.t;
}.

Record SingleServicePrivateECSFargateConstructProps := {
  appName : string;
  tagEnv : string;
  vpc : IVpc.t;
  service : ECSServiceProps;
}.

(** *** Zod schemas for validation *)

Definition ECSFargateConfigSchema : Zod.Schema FargateConfig.t :=
  Zod.object [
    Zod.prop "cpu" FargateConfig.cpu
      (Zod.optional (Zod.literals [256; 512; 1024; 2048; 4096]));
    Zod.prop "memoryLimitMiB" FargateConfig.memoryLimitMiB
      (Zod.optional (Zod.literals
         [512; 1024; 2048; 3072; 4096; 5120; 6144; 7168; 8192; 16384;
          30720]))
  ].

Definition ECSImageObjectSchema : Zod.Schema Image.t :=
  Zod.object [
    Zod.prop "path" Image.path
      (Zod.string_min 1 (Some "Docker image path is required."));
    Zod.prop "name" Image.name (Zod.optional Zod.any);
    Zod.prop "labels" Image.labels (Zod.optional Zod.any)
  ].

Definition ECSLogGroupConfigSchema : Zod.Schema LogGroupConfig.t :=
  Zod.object [
    Zod.prop "logGroupName" LogGroupConfig.logGroupName
      (Zod.string_min 1 (Some "Log group name is required."));
    Zod.prop "removalPolicy" LogGroupConfig.removalPolicy Zod.any;
    Zod.prop "retention" LogGroupConfig.retention Zod.any
  ].

Definition ECSServicePropsSchema : Zod.Schema ECSServiceProps :=
  Zod.object [
    Zod.prop "name" name
      (Zod.string_min 1 (Some "Each ECS service must have a name."));
    Zod.prop "port" port
      (Zod.both (Zod.number_min 1 None)
         (Zod.number_max 65535 (Some "Port must be between 1 and 65535.")));
    Zod.prop "desiredCount" desiredCount
      (Zod.number_min 1 (Some "desiredCount must be greater than 0."));
    Zod.prop "version" version
      (Zod.string_min 1 (Some "Version is required for the ECS service."));
    Zod.prop "envVariables" envVariables Zod.any;
    Zod.prop "image" image ECSImageObjectSchema;
    Zod.prop "healthCheckPath" healthCheckPath
      (Zod.both (Zod.string_min 1 (Some "Health check path is required."))
         (Zod.startsWith "/"));
    Zod.prop "fargateConfig" fargateConfig
      (Zod.optional ECSFargateConfigSchema);
    Zod.prop "logGroupConfig" logGroupConfig
      (Zod.optional ECSLogGroupConfigSchema)
  ].

Definition VpcSchema : Zod.Schema IVpc.t :=
  λ p v, Zod.check (IVpc.isVpc v) Zod.custom p None.

Definition SingleServicePrivateECSFargateConstructPropsSchema
    : Zod.Schema SingleServicePrivateECSFargateConstructProps :=
  Zod.object [
    Zod.prop "appName" appName
      (Zod.string_min 3 (Some "appName must be at least 3 characters."));
    Zod.prop "tagEnv" tagEnv
      (Zod.string_min 1 (Some "tagEnv is required and cannot be empty."));
    Zod.prop "vpc" vpc VpcSchema;
    Zod.prop "service" service ECSServicePropsSchema
  ].

(** *** The constructor *)

Definition environmentVariables (ecsService : ECSServiceProps)
    : gmap string string :=
  JS.spread
    {[ "PORT" := JS.number_to_string (port ecsService);
       "SERVICE_NAME" := name ecsService;
       "API_VERSION" := version ecsService ]}
    (envVariables ecsService).

(** The options passed to [this.taskDefinition.addContainer]. *)
Definition containerOptions (clusterName : string) (logGroup : Path)
    (ecsService : ECSServiceProps) : ContainerDefinitionOptions :=
  {| containerName := name ecsService +:+ "-container";
     imageAsset := Image.path (image ecsService);
     imageFile := JS.or_string (Image.name (image ecsService)) "Dockerfile";
     imagePlatform := "linux/arm64";
     environment := environmentVariables ecsService;
     logGroup := logGroup;
     streamPrefix := name ecsService;
     portMappings := [port ecsService];
     dockerLabels :=
       JS.or_object (Image.labels (image ecsService))
         {[ "cluster" := clusterName;
            "service" := name ecsService;
            "version" := version ecsService ]};
     healthCheck :=
       {| command :=
            ["CMD-SHELL";
             "curl -f http://localhost:"
             +:+ JS.number_to_string (port ecsService)
             +:+ healthCheckPath ecsService +:+ " || exit 1"];
          interval := 30;
          timeout := 5;
          retries := 3;
          startPeriod := 30 |} |}.

Definition SingleServicePrivateECSFargateConstruct
    (props : SingleServicePrivateECSFargateConstructProps) : M unit :=
  parse SingleServicePrivateECSFargateConstructPropsSchema props;;
  let ecsService := service props in
  cluster ← new this (appName props +:+ "-cluster")
    (Cluster (appName props +:+ "-cluster"));
  parse ECSServicePropsSchema ecsService;;
  taskDefinition ← new this (name ecsService +:+ "-task-definition")
    (FargateTaskDefinition
       (JS.or_number
          (fargateConfig ecsService ≫= FargateConfig.memoryLimitMiB) 1024)
       (JS.or_number (fargateConfig ecsService ≫= FargateConfig.cpu) 512)
       (name ecsService +:+ "-task-family") "LINUX" "ARM64");
  logGroup ← new this (name ecsService +:+ "-log-group")
    (LogGroup
       (JS.or_object (logGroupConfig ecsService)
          {| LogGroupConfig.logGroupName :=
               name ecsService +:+ "-log-group";
             LogGroupConfig.removalPolicy := DESTROY;
             LogGroupConfig.retention := TWO_WEEKS |}));
  _ ← new taskDefinition (name ecsService +:+ "-container")
    (ContainerDefinition
       (containerOptions (appName props +:+ "-cluster") logGroup
          ecsService));
  ecsSecurityGroup ← new this (name ecsService +:+ "-security-group")
    (SecurityGroup true
       ("Security group for the ECS service " +:+ name ecsService));
  addIngressRule ecsSecurityGroup (Ipv4 (IVpc.vpcCidrBlock (vpc props)))
    (port ecsService)
    ("Allow inbound traffic on port "
     +:+ JS.number_to_string (port ecsService) +:+ " from within the VPC");;
  _ ← new this
    (appName props +:+ "-" +:+ name ecsService +:+ "-service")
    (FargateService
       {| assignPublicIp := false;
          Cdk.cluster := cluster;
          Cdk.desiredCount := desiredCount ecsService;
          securityGroups := [ecsSecurityGroup];
          serviceName := name ecsService;
          Cdk.taskDefinition := taskDefinition;
          vpcSubnets := PRIVATE_WITH_EGRESS |});
  mret tt.

(** The tree of a private single-service topology. *)
Definition topology (props : SingleServicePrivateECSFargateConstructProps)
    : Tree :=
  let ecsService := service props in
  let cluster := [appName props +:+ "-cluster"] in
  let taskDefinition := [name ecsService +:+ "-task-definition"] in
  let logGroup := [name ecsService +:+ "-log-group"] in
  let ecsSecurityGroup := [name ecsService +:+ "-security-group"] in
  [ Child cluster (Cluster (appName props +:+ "-cluster"));
    Child taskDefinition
      (FargateTaskDefinition
         (JS.or_number
            (fargateConfig ecsService ≫= FargateConfig.memoryLimitMiB) 1024)
         (JS.or_number (fargateConfig ecsService ≫= FargateConfig.cpu) 512)
         (name ecsService +:+ "-task-family") "LINUX" "ARM64");
    Child logGroup
      (LogGroup
         (JS.or_object (logGroupConfig ecsService)
            {| LogGroupConfig.logGroupName :=
                 name ecsService +:+ "-log-group";
               LogGroupConfig.removalPolicy := DESTROY;
               LogGroupConfig.retention := TWO_WEEKS |}));
    Child (taskDefinition ++ [name ecsService +:+ "-container"])
      (ContainerDefinition
         (containerOptions (appName props +:+ "-cluster") logGroup
            ecsService));
    Child ecsSecurityGroup
      (SecurityGroup true
         ("Security group for the ECS service " +:+ name ecsService));
    Ingress ecsSecurityGroup
      {| peer := Ipv4 (IVpc.vpcCidrBlock (vpc props));
         tcp := port ecsService;
         ruleDescription :=
           "Allow inbound traffic on port "
           +:+ JS.number_to_string (port ecsService)
           +:+ " from within the VPC" |};
    Child [appName props +:+ "-" +:+ name ecsService +:+ "-service"]
      (FargateService
         {| assignPublicIp := false;
            Cdk.cluster := cluster;
            Cdk.desiredCount := desiredCount ecsService;
            securityGroups := [ecsSecurityGroup];
            serviceName := name ecsService;
            Cdk.taskDefinition := taskDefinition;
            vpcSubnets := PRIVATE_WITH_EGRESS |}) ].

End Single.

(** ** The instantiations of [lib/index.ts] *)

Module Index.

Definition vpc : IVpc.t :=
  {| IVpc.isVpc := true; IVpc.vpcCidrBlock := "10.0.0.0/16" |}.

Definition authService : Multi.ECSServiceConfig :=
  {| Multi.name := "auth-service";
     Multi.port := 8080;
     Multi.desiredCount := 2;
     Multi.version := "v1";
     Multi.envVariables :=
       {[ "NODE_ENV" := "production"; "CUSTOM_ENV_VAR" := "value" ]};
     Multi.priority := 1;
     Multi.image :=
       {| Image.path := "src/containers/auth-service";
          Image.name := Some "Dockerfile";
          Image.labels :=
            Some {[ "service" := "auth-service"; "version" := "v1" ]} |};
     Multi.healthCheckConfig :=
       {| HealthCheckConfig.path := "/health";
          HealthCheckConfig.intervalSeconds := Some 20;
          HealthCheckConfig.timeoutSeconds := Some 5;
          HealthCheckConfig.retries := Some 3;
          HealthCheckConfig.startPeriodSeconds := Some 30 |};
     Multi.fargateConfig :=
       Some {| FargateConfig.cpu := Some 512;
               FargateConfig.memoryLimitMiB := Some 1024 |};
     Multi.logGroupConfig :=
       Some {| LogGroupConfig.logGroupName := "auth-service-log-group";
               LogGroupConfig.removalPolicy := DESTROY;
               LogGroupConfig.retention := ONE_WEEK |};
     Multi.autoScalingConfig :=
       Some {| AutoScalingConfig.minCapacity := 1;
               AutoScalingConfig.maxCapacity := 3;
               AutoScalingConfig.targetCpuUtilization := Some 70;
               AutoScalingConfig.targetMemoryUtilization := Some 80 |} |}.

Definition paymentService : Multi.ECSServiceConfig :=
  {| Multi.name := "payment-service";
     Multi.port := 8081;
     Multi.desiredCount := 2;
     Multi.version := "v1";
     Multi.envVariables := {[ "NODE_ENV" := "production" ]};
     Multi.priority := 2;
     Multi.image :=
       {| Image.path := "src/containers/payment-service";
          Image.name := None;
          Image.labels := None |};
     Multi.healthCheckConfig :=
       {| HealthCheckConfig.path := "/health";
          HealthCheckConfig.intervalSeconds := None;
          HealthCheckConfig.timeoutSeconds := None;
          HealthCheckConfig.retries := None;
          HealthCheckConfig.startPeriodSeconds := None |};
     Multi.fargateConfig := None;
     Multi.logGroupConfig := None;
     Multi.autoScalingConfig := None |}.

Definition multiProps
    : Multi.MultiServiceECSFargateLoadBalancedConstructProps :=
  {| Multi.appName := "my-app";
     Multi.tagEnv := "dev";
     Multi.vpc := vpc;
     Multi.hostedZoneId := "Z123456789ABCDEFG";
     Multi.domainName := "example.com";
     Multi.apiSubdomainName := "api";
     Multi.ecsServices := [authService; paymentService] |}.

Definition singleProps
    : Single.SingleServicePrivateECSFargateConstructProps :=
  {| Single.appName := "my-single-service-app";
     Single.tagEnv := "dev";
     Single.vpc := vpc;
     Single.service :=
       {| Single.name := "user-service";
          Single.port := 8080;
          Single.desiredCount := 1;
          Single.version := "v1";
          Single.envVariables := {[ "NODE_ENV" := "production" ]};
          Single.image :=
            {| Image.path := "src/containers/user-service";
               Image.name := Some "Dockerfile.user";
               Image.labels :=
                 Some {[ "service" := "user-service";
                         "version" := "v1" ]} |};
          Single.healthCheckPath := "/health";
          Single.fargateConfig :=
            Some {| FargateConfig.cpu := Some 512;
                    FargateConfig.memoryLimitMiB := Some 1024 |};
          Single.logGroupConfig :=
            Some {| LogGroupConfig.logGroupName := "user-service-log-group";
                    LogGroupConfig.removalPolicy := RETAIN;
                    LogGroupConfig.retention := TWO_WEEKS |} |} |}.

End Index.


(** ** Further inputs, used to exercise the properties below *)

Module Inputs.

(** A service whose health check gives only the path and an interval. *)
Definition intervalOnly : Multi.ECSServiceConfig :=
  {| Multi.name := "x";
     Multi.port := 8080;
     Multi.desiredCount := 1;
     Multi.version := "v1";
     Multi.envVariables := {[ "PORT" := "9999" ]};
     Multi.priority := 1;
     Multi.image :=
       {| Image.path := "src/containers/x";
          Image.name := None;
          Image.labels := None |};
     Multi.healthCheckConfig :=
       {| HealthCheckConfig.path := "/health";
          HealthCheckConfig.intervalSeconds := Some 10;
          HealthCheckConfig.timeoutSeconds := None;
          HealthCheckConfig.retries := None;
          HealthCheckConfig.startPeriodSeconds := None |};
     Multi.fargateConfig := None;
     Multi.logGroupConfig := None;
     Multi.autoScalingConfig := None |}.

(** A service that asks for no start period: [startPeriodSeconds: 0]. *)
Definition zeroStartPeriod : Multi.ECSServiceConfig :=
  {| Multi.name := "x";
     Multi.port := 8080;
     Multi.desiredCount := 1;
     Multi.version := "v1";
     Multi.envVariables := ∅;
     Multi.priority := 1;
     Multi.image :=
       {| Image.path := "src/containers/x";
          Image.name := None;
          Image.labels := None |};
     Multi.healthCheckConfig :=
       {| HealthCheckConfig.path := "/health";
          HealthCheckConfig.intervalSeconds := None;
          HealthCheckConfig.timeoutSeconds := None;
          HealthCheckConfig.retries := None;
          HealthCheckConfig.startPeriodSeconds := Some 0 |};
     Multi.fargateConfig := None;
     Multi.logGroupConfig := None;
     Multi.autoScalingConfig := None |}.

(** A service that scales on memory only. *)
Definition memoryOnly : Multi.ECSServiceConfig :=
  {| Multi.name := "x";
     Multi.port := 8080;
     Multi.desiredCount := 1;
     Multi.version := "v1";
     Multi.envVariables := ∅;
     Multi.priority := 1;
     Multi.image :=
       {| Image.path := "src/containers/x";
          Image.name := None;
          Image.labels := None |};
     Multi.healthCheckConfig :=
       {| HealthCheckConfig.path := "/health";
          HealthCheckConfig.intervalSeconds := None;
          HealthCheckConfig.timeoutSeconds := None;
          HealthCheckConfig.retries := None;
          HealthCheckConfig.startPeriodSeconds := None |};
     Multi.fargateConfig := None;
     Multi.logGroupConfig := None;
     Multi.autoScalingConfig :=
       Some {| AutoScalingConfig.minCapacity := 1;
               AutoScalingConfig.maxCapacity := 3;
               AutoScalingConfig.targetCpuUtilization := None;
               AutoScalingConfig.targetMemoryUtilization := Some 80 |} |}.

Definition withServices (l : list Multi.ECSServiceConfig)
    : Multi.MultiServiceECSFargateLoadBalancedConstructProps :=
  {| Multi.appName := "my-app";
     Multi.tagEnv := "dev";
     Multi.vpc := Index.vpc;
     Multi.hostedZoneId := "Z123456789ABCDEFG";
     Multi.domainName := "example.com";
     Multi.apiSubdomainName := "api";
     Multi.ecsServices := l |}.

(** Two services called "auth-service", on different ports. *)
Definition sameName : Multi.MultiServiceECSFargateLoadBalancedConstructProps :=
  withServices
    [Index.authService;
     Multi.with_priority 2 (Multi.with_port 9090 Index.authService)].

(** An application name of two characters. *)
Definition shortAppName
    : Multi.MultiServiceECSFargateLoadBalancedConstructProps :=
  {| Multi.appName := "ab";
     Multi.tagEnv := "dev";
     Multi.vpc := Index.vpc;
     Multi.hostedZoneId := "Z123456789ABCDEFG";
     Multi.domainName := "example.com";
     Multi.apiSubdomainName := "api";
     Multi.ecsServices := [Index.authService; Index.paymentService] |}.

(** A private service on port 65536. *)
Definition portOutOfRange
    : Single.SingleServicePrivateECSFargateConstructProps :=
  {| Single.appName := "my-single-service-app";
     Single.tagEnv := "dev";
     Single.vpc := Index.vpc;
     Single.service :=
       {| Single.name := "user-service";
          Single.port := 65536;
          Single.desiredCount := 1;
          Single.version := "v1";
          Single.envVariables := ∅;
          Single.image :=
            {| Image.path := "src/containers/user-service";
               Image.name := None;
               Image.labels := None |};
          Single.healthCheckPath := "/health";
          Single.fargateConfig := None;
          Single.logGroupConfig := None |} |}.

End Inputs.


(** ** The planned topology of the multi-service construct *)

Module Topology.
Import Cdk.

(** The error of [Node.addChild] for the construct at [p]. *)
Definition duplicate (p : Path) : Exception :=
  DuplicateConstruct (removelast p) (List.last p "").

(** Adding the entries of a plan one after the other, as a constructor
    body does: a child whose path is taken stops it. *)
Fixpoint register (plan : Tree) (t : Tree) : (Exception + unit) * Tree :=
  match plan with
  | [] => (inr (), t)
  | Child p r :: rest =>
      if bool_decide (p ∈ children t) then (inl (duplicate p), t)
      else register rest (t ++ [Child p r])
  | e :: rest => register rest (t ++ [e])
  end.

(** A body follows a plan when running it is registering the plan. *)
Definition follows (c : M unit) (plan : Tree) : Prop :=
  ∀ t, run c t = register plan t.

Definition loadBalancerPath
    (props : Multi.MultiServiceECSFargateLoadBalancedConstructProps)
    : Path :=
  [Multi.appName props +:+ "-" +:+ Multi.tagEnv props +:+ "-load-balancer"].

(** What the constructor creates before the loop. *)
Definition sharedEntries
    (props : Multi.MultiServiceECSFargateLoadBalancedConstructProps)
    (region : string) : Tree :=
  let appName := Multi.appName props in
  let hostedZone := [appName +:+ "-hosted-zone-lookup"] in
  let certificate := [appName +:+ "-ssl-certificate"] in
  let loadBalancer := loadBalancerPath props in
  [ Child hostedZone
      (HostedZone (Multi.hostedZoneId props) (Multi.domainName props));
    Child certificate
      (Certificate
         ("*." +:+ Multi.tagEnv props +:+ "." +:+ Multi.domainName props)
         hostedZone
         [Multi.apiSubdomainName props +:+ "." +:+ Multi.domainName props]);
    Child [appName +:+ "-cluster"] (Cluster (appName +:+ "-cluster"));
    Child loadBalancer
      (ApplicationLoadBalancer true
         (appName +:+ "-" +:+ Multi.tagEnv props +:+ "-load-balancer")
         PUBLIC);
    Child [appName +:+ "-alias-record-" +:+ region]
      (ARecord hostedZone loadBalancer
         (Multi.apiSubdomainName props +:+ "." +:+ Multi.domainName props));
    Child [appName +:+ "-" +:+ region +:+ "-load-balancer-arn"]
      (StringParameter ("/" +:+ appName +:+ "/load-balancer-arn")
         (Attribute loadBalancer "loadBalancerArn"));
    Child
      [appName +:+ "-" +:+ region +:+ "-load-balancer-security-group-id"]
      (StringParameter
         ("/" +:+ appName +:+ "/load-balancer-security-group-id")
         (Attribute loadBalancer "securityGroupId"));
    Tag loadBalancer "name" (appName +:+ "-load-balancer");
    Child (loadBalancer ++ [appName +:+ "-https-listener"])
      (ApplicationListener 443 [certificate] (Some "RECOMMENDED_TLS")
         (fixedResponse 404 "application/json"
            (JS.JSON_stringify [("message", "Not Found")])));
    Child (loadBalancer ++ [appName +:+ "-http-listener"])
      (ApplicationListener 80 [] None (redirect "HTTPS" "443")) ].

(** What one turn of the loop creates for [ecsService], up to the target
    group. *)
Definition serviceCore
    (props : Multi.MultiServiceECSFargateLoadBalancedConstructProps)
    (ecsService : Multi.ECSServiceConfig) : Tree :=
  let appName := Multi.appName props in
  let name := Multi.name ecsService in
  let taskDefinition := [name +:+ "-task-definition"] in
  let logGroup := [name +:+ "-log-group"] in
  let ecsSecurityGroup := [name +:+ "-security-group"] in
  let service := Multi.servicePath props ecsService in
  [ Child taskDefinition
      (FargateTaskDefinition
         (JS.or_number
            (Multi.fargateConfig ecsService ≫= FargateConfig.memoryLimitMiB)
            1024)
         (JS.or_number
            (Multi.fargateConfig ecsService ≫= FargateConfig.cpu) 512)
         (name +:+ "-task-family") "LINUX" "ARM64");
    Child logGroup
      (LogGroup
         (JS.or_object (Multi.logGroupConfig ecsService)
            {| LogGroupConfig.logGroupName := name +:+ "-log-group";
               LogGroupConfig.removalPolicy := DESTROY;
               LogGroupConfig.retention := TWO_WEEKS |}));
    Child (taskDefinition ++ [name +:+ "-container"])
      (ContainerDefinition
         (Multi.containerOptions (appName +:+ "-cluster") logGroup
            ecsService));
    Child ecsSecurityGroup
      (SecurityGroup true ("Security group for the ECS service " +:+ name));
    Ingress ecsSecurityGroup
      {| peer := SecurityGroupOf (loadBalancerPath props);
         tcp := Multi.port ecsService;
         ruleDescription := "Allow traffic from the load balancer" |};
    Child service
      (FargateService
         {| assignPublicIp := true;
            Cdk.cluster := [appName +:+ "-cluster"];
            Cdk.desiredCount := Multi.desiredCount ecsService;
            securityGroups := [ecsSecurityGroup];
            serviceName := name;
            Cdk.taskDefinition := taskDefinition;
            vpcSubnets := PRIVATE_WITH_EGRESS |});
    Child
      (Multi.httpsListenerPath props ++ [appName +:+ "-" +:+ name +:+ "-tg"])
      (ApplicationTargetGroup
         (Multi.targetsOptions appName service ecsService)) ].

(** What one turn of the loop creates for [ecsService]. *)
Definition serviceEntries
    (props : Multi.MultiServiceECSFargateLoadBalancedConstructProps)
    (ecsService : Multi.ECSServiceConfig) : Tree :=
  let service := Multi.servicePath props ecsService in
  serviceCore props ecsService
  ++ Multi.scaling (Multi.appName props) service ecsService
  ++ [ Tag service "AppName" (Multi.appName props);
       Tag service "Environment" (Multi.tagEnv props);
       Tag service "ServiceName" (Multi.name ecsService) ].

(** The paths that the constructs of [ecsService] can have: those of
    [serviceCore], then the scalable target and its two policies. *)
Definition servicePaths
    (props : Multi.MultiServiceECSFargateLoadBalancedConstructProps)
    (ecsService : Multi.ECSServiceConfig) : list Path :=
  let appName := Multi.appName props in
  let name := Multi.name ecsService in
  let service := Multi.servicePath props ecsService in
  [ [name +:+ "-task-definition"];
    [name +:+ "-log-group"];
    [name +:+ "-task-definition"; name +:+ "-container"];
    [name +:+ "-security-group"];
    service;
    Multi.httpsListenerPath props ++ [appName +:+ "-" +:+ name +:+ "-tg"];
    service ++ ["TaskCount"];
    service ++ ["TaskCount"; appName +:+ "-" +:+ name +:+ "-cpu-scaling"];
    service
    ++ ["TaskCount"; appName +:+ "-" +:+ name +:+ "-memory-scaling"] ].

(** [sanitizeId] of the [constructs] library: a construct keeps its id
    with every "/" replaced by "--", and the ids of the children of a
    scope are compared after that. *)
Fixpoint sanitizeId (id : string) : string :=
  match id with
  | "" => ""
  | String c rest =>
      if Ascii.eqb c (Ascii.ascii_of_nat 47)
      then "--" +:+ sanitizeId rest
      else String c (sanitizeId rest)
  end.

(** The path of a construct with the ids on it rewritten. *)
Definition sanitizePath (p : Path) : Path := sanitizeId <$> p.

(** A region name that ends with a digit, as "us-east-1" does. *)
Definition ends_with_digit (region : string) : Prop :=
  ∃ r d, region = r +:+ String d "" ∧ is_Some (Ascii.is_nat d).

(** The tree of a multi-service topology: the shared resources, then the
    resources of each service in the order of [props.ecsServices]. *)
Definition multi
    (props : Multi.MultiServiceECSFargateLoadBalancedConstructProps)
    (region : string) : Tree :=
  sharedEntries props region
  ++ concat (serviceEntries props <$> Multi.ecsServices props).

End Topology.

(** ** Views of a tree and further variations of an input *)

Module View.
Import Cdk.

Definition is_load_balancer (r : Resource) : bool :=
  match r with ApplicationLoadBalancer _ _ _ => true | _ => false end.

Definition is_listener (r : Resource) : bool :=
  match r with ApplicationListener _ _ _ _ => true | _ => false end.

Definition is_record (r : Resource) : bool :=
  match r with ARecord _ _ _ => true | _ => false end.

Definition is_parameter (r : Resource) : bool :=
  match r with StringParameter _ _ => true | _ => false end.

Definition is_task_definition (r : Resource) : bool :=
  match r with FargateTaskDefinition _ _ _ _ _ => true | _ => false end.

(** How many resources of a tree satisfy [P]. *)
Definition count (P : Resource → bool) (t : Tree) : nat :=
  length (filter P (resources t)).

(** [P] holds of no scaling construct. *)
Definition blind (P : Resource → bool) : Prop :=
  (∀ lo hi, P (ScalableTaskCount lo hi) = false)
  ∧ (∀ percent, P (CpuUtilizationScaling percent) = false)
  ∧ (∀ percent, P (MemoryUtilizationScaling percent) = false).

(** The options of the target groups of a tree, in order. *)
Definition target_groups (t : Tree) : list AddApplicationTargetsProps :=
  omap (λ r, match r with
             | ApplicationTargetGroup options => Some options
             | _ => None
             end) (resources t).

(** The properties of the Fargate services of a tree, in order. *)
Definition services (t : Tree) : list FargateServiceProps :=
  omap (λ r, match r with FargateService p => Some p | _ => None end)
    (resources t).

(** The ingress rules that the constructor gives to the security group
    [group] with [group.addIngressRule], in order. *)
Definition rules_on (group : Path) (t : Tree) : list IngressRule :=
  omap (λ e, match e with
             | Ingress on rule =>
                 if bool_decide (on = group) then Some rule else None
             | _ => None
             end) t.

End View.

(** ** The rules of the schemas, field by field *)

Module Rules.

Definition image (i : Image.t) : Prop :=
  (1 ≤ String.length (Image.path i))%nat.

Definition fargateConfig (o : option FargateConfig.t) : Prop :=
  ∀ c, o = Some c →
    (∀ cpu, FargateConfig.cpu c = Some cpu →
       cpu ∈ [256; 512; 1024; 2048; 4096])
    ∧ (∀ memory, FargateConfig.memoryLimitMiB c = Some memory →
         memory ∈ [512; 1024; 2048; 3072; 4096; 5120; 6144; 7168; 8192;
                   16384; 30720]).

Definition logGroupConfig (o : option LogGroupConfig.t) : Prop :=
  ∀ c, o = Some c → (1 ≤ String.length (LogGroupConfig.logGroupName c))%nat.

Definition autoScalingConfig (o : option AutoScalingConfig.t) : Prop :=
  ∀ c, o = Some c →
    1 ≤ AutoScalingConfig.minCapacity c
    ∧ 1 ≤ AutoScalingConfig.maxCapacity c
    ∧ (∀ percent, AutoScalingConfig.targetCpuUtilization c = Some percent →
         1 ≤ percent ≤ 100)
    ∧ (∀ percent,
         AutoScalingConfig.targetMemoryUtilization c = Some percent →
         1 ≤ percent ≤ 100).

(** The rules on the fields that the two kinds of service share. *)
Definition common (name : string) (port desiredCount : Z) (version : string)
    (i : Image.t) (healthCheckPath : string)
    (fargate : option FargateConfig.t)
    (logGroup : option LogGroupConfig.t) : Prop :=
  (1 ≤ String.length name)%nat
  ∧ 1 ≤ port ≤ 65535
  ∧ 1 ≤ desiredCount
  ∧ (1 ≤ String.length version)%nat
  ∧ image i
  ∧ String.prefix "/" healthCheckPath = true
  ∧ fargateConfig fargate
  ∧ logGroupConfig logGroup.

Definition multiService (s : Multi.ECSServiceConfig) : Prop :=
  common (Multi.name s) (Multi.port s) (Multi.desiredCount s)
    (Multi.version s) (Multi.image s)
    (HealthCheckConfig.path (Multi.healthCheckConfig s))
    (Multi.fargateConfig s) (Multi.logGroupConfig s)
  ∧ autoScalingConfig (Multi.autoScalingConfig s).

Definition singleService (s : Single.ECSServiceProps) : Prop :=
  common (Single.name s) (Single.port s) (Single.desiredCount s)
    (Single.version s) (Single.image s) (Single.healthCheckPath s)
    (Single.fargateConfig s) (Single.logGroupConfig s).

End Rules.

(** ** More variations of an input *)

Module Vary.

Definition fargateConfig (c : option FargateConfig.t)
    (s : Multi.ECSServiceConfig) : Multi.ECSServiceConfig :=
  {| Multi.name := Multi.name s; Multi.port := Multi.port s;
     Multi.desiredCount := Multi.desiredCount s;
     Multi.version := Multi.version s;
     Multi.envVariables := Multi.envVariables s;
     Multi.priority := Multi.priority s; Multi.image := Multi.image s;
     Multi.healthCheckConfig := Multi.healthCheckConfig s;
     Multi.fargateConfig := c;
     Multi.logGroupConfig := Multi.logGroupConfig s;
     Multi.autoScalingConfig := Multi.autoScalingConfig s |}.

Definition autoScalingConfig (c : option AutoScalingConfig.t)
    (s : Multi.ECSServiceConfig) : Multi.ECSServiceConfig :=
  {| Multi.name := Multi.name s; Multi.port := Multi.port s;
     Multi.desiredCount := Multi.desiredCount s;
     Multi.version := Multi.version s;
     Multi.envVariables := Multi.envVariables s;
     Multi.priority := Multi.priority s; Multi.image := Multi.image s;
     Multi.healthCheckConfig := Multi.healthCheckConfig s;
     Multi.fargateConfig := Multi.fargateConfig s;
     Multi.logGroupConfig := Multi.logGroupConfig s;
     Multi.autoScalingConfig := c |}.

(** The service of a multi-service topology, as the [props.service] of the
    single-service construct. *)
Definition asSingle (s : Multi.ECSServiceConfig) : Single.ECSServiceProps :=
  {| Single.name := Multi.name s; Single.port := Multi.port s;
     Single.desiredCount := Multi.desiredCount s;
     Single.version := Multi.version s;
     Single.envVariables := Multi.envVariables s;
     Single.image := Multi.image s;
     Single.healthCheckPath :=
       HealthCheckConfig.path (Multi.healthCheckConfig s);
     Single.fargateConfig := Multi.fargateConfig s;
     Single.logGroupConfig := Multi.logGroupConfig s |}.

Definition singlePort (p : Z)
    (props : Single.SingleServicePrivateECSFargateConstructProps)
    : Single.SingleServicePrivateECSFargateConstructProps :=
  let s := Single.service props in
  {| Single.appName := Single.appName props;
     Single.tagEnv := Single.tagEnv props;
     Single.vpc := Single.vpc props;
     Single.service :=
       {| Single.name := Single.name s; Single.port := p;
          Single.desiredCount := Single.desiredCount s;
          Single.version := Single.version s;
          Single.envVariables := Single.envVariables s;
          Single.image := Single.image s;
          Single.healthCheckPath := Single.healthCheckPath s;
          Single.fargateConfig := Single.fargateConfig s;
          Single.logGroupConfig := Single.logGroupConfig s |} |}.

(** A network that was imported, not created with [new ec2.Vpc]. *)
Definition importedVpc : IVpc.t :=
  {| IVpc.isVpc := false; IVpc.vpcCidrBlock := "10.0.0.0/16" |}.

Definition multiVpc (v : IVpc.t)
    (props : Multi.MultiServiceECSFargateLoadBalancedConstructProps)
    : Multi.MultiServiceECSFargateLoadBalancedConstructProps :=
  {| Multi.appName := Multi.appName props;
     Multi.tagEnv := Multi.tagEnv props; Multi.vpc := v;
     Multi.hostedZoneId := Multi.hostedZoneId props;
     Multi.domainName := Multi.domainName props;
     Multi.apiSubdomainName := Multi.apiSubdomainName props;
     Multi.ecsServices := Multi.ecsServices props |}.

Definition singleVpc (v : IVpc.t)
    (props : Single.SingleServicePrivateECSFargateConstructProps)
    : Single.SingleServicePrivateECSFargateConstructProps :=
  {| Single.appName := Single.appName props;
     Single.tagEnv := Single.tagEnv props; Single.vpc := v;
     Single.service := Single.service props |}.

(** An input with the names that go into construct ids rewritten as the
    [constructs] library rewrites ids. *)
Definition sanitizedService (s : Multi.ECSServiceConfig)
    : Multi.ECSServiceConfig :=
  {| Multi.name := Topology.sanitizeId (Multi.name s);
     Multi.port := Multi.port s;
     Multi.desiredCount := Multi.desiredCount s;
     Multi.version := Multi.version s;
     Multi.envVariables := Multi.envVariables s;
     Multi.priority := Multi.priority s; Multi.image := Multi.image s;
     Multi.healthCheckConfig := Multi.healthCheckConfig s;
     Multi.fargateConfig := Multi.fargateConfig s;
     Multi.logGroupConfig := Multi.logGroupConfig s;
     Multi.autoScalingConfig := Multi.autoScalingConfig s |}.

Definition sanitized
    (props : Multi.MultiServiceECSFargateLoadBalancedConstructProps)
    : Multi.MultiServiceECSFargateLoadBalancedConstructProps :=
  {| Multi.appName := Topology.sanitizeId (Multi.appName props);
     Multi.tagEnv := Topology.sanitizeId (Multi.tagEnv props);
     Multi.vpc := Multi.vpc props;
     Multi.hostedZoneId := Multi.hostedZoneId props;
     Multi.domainName := Multi.domainName props;
     Multi.apiSubdomainName := Multi.apiSubdomainName props;
     Multi.ecsServices := sanitizedService <$> Multi.ecsServices props |}.

End Vary.

(** * Properties *)

(** ** The zod fragment *)

Section ZodFacts.
Import Zod.

Lemma check_nil ok c p msg : check ok c p msg = [] ↔ ok = true.
Proof. unfold check. destruct ok; split; congruence. Qed.

Lemma unlocated_string_min n msg : unlocated (string_min n msg).
Proof. intros p q v. unfold string_min. rewrite !check_nil. done. Qed.

Lemma unlocated_startsWith pre : unlocated (startsWith pre).
Proof. intros p q v. unfold startsWith. rewrite !check_nil. done. Qed.

Lemma unlocated_number_min lo msg : unlocated (number_min lo msg).
Proof. intros p q v. unfold number_min. rewrite !check_nil. done. Qed.

Lemma unlocated_number_max hi msg : unlocated (number_max hi msg).
Proof. intros p q v. unfold number_max. rewrite !check_nil. done. Qed.

Lemma unlocated_any {A : Type} : unlocated (@any A).
Proof. done. Qed.

Lemma unlocated_literals l : unlocated (literals l).
Proof. intros p q v. unfold literals. rewrite !check_nil. done. Qed.

Lemma unlocated_both {A : Type} (s1 s2 : Schema A) :
  unlocated s1 → unlocated s2 → unlocated (both s1 s2).
Proof.
  intros H1 H2 p q v. unfold both. rewrite !app_nil.
  intros [? ?]. split; eauto.
Qed.

Lemma unlocated_optional {A : Type} (s : Schema A) :
  unlocated s → unlocated (optional s).
Proof. intros H p q [v|]; simpl; eauto. Qed.

Lemma unlocated_prop {A B : Type} key (get : A → B) (s : Schema B) :
  unlocated s → unlocated (prop key get s).
Proof. intros H p q v. unfold prop. apply H. Qed.

Lemma unlocated_object {A : Type} (props : list (Schema A)) :
  Forall unlocated props → unlocated (object props).
Proof.
  intros H p q v. unfold object.
  induction H as [|s props Hs _ IH]; simpl; [done|].
  rewrite !app_nil. intros [? ?]. split; eauto.
Qed.

End ZodFacts.

(** ** Constructor bodies *)

Section CdkFacts.
Import Cdk.

Lemma run_bind {A B : Type} (c : M A) (f : A → M B) t :
  run (c ≫= f) t =
    match run c t with
    | (inr x, t') => run (f x) t'
    | (inl e, t') => (inl e, t')
    end.
Proof. reflexivity. Qed.

Lemma bind_inr {A B : Type} (c : M A) (f : A → M B) t y t' :
  run (c ≫= f) t = (inr y, t') →
  ∃ x t1, run c t = (inr x, t1) ∧ run (f x) t1 = (inr y, t').
Proof.
  rewrite run_bind. destruct (run c t) as [[e|x] t1]; [done|]. eauto.
Qed.

Lemma bind_inl {A B : Type} (c : M A) (f : A → M B) t e t' :
  run c t = (inl e, t') → run (c ≫= f) t = (inl e, t').
Proof. rewrite run_bind. by intros ->. Qed.

Lemma children_app t1 t2 : children (t1 ++ t2) = children t1 ++ children t2.
Proof. apply omap_app. Qed.

Lemma children_child t p r : children (t ++ [Child p r]) = children t ++ [p].
Proof. by rewrite children_app. Qed.

Lemma new_fresh scope id r t :
  scope ++ [id] ∉ children t →
  run (new scope id r) t
  = (inr (scope ++ [id]), t ++ [Child (scope ++ [id]) r]).
Proof. intros H. unfold run, new. by rewrite bool_decide_eq_false_2. Qed.

Lemma new_taken scope id r t :
  scope ++ [id] ∈ children t →
  run (new scope id r) t = (inl (DuplicateConstruct scope id), t).
Proof. intros H. unfold run, new. by rewrite bool_decide_eq_true_2. Qed.

Lemma new_inr scope id r t p t' :
  run (new scope id r) t = (inr p, t') →
  p = scope ++ [id] ∧ t' = t ++ [Child (scope ++ [id]) r]
  ∧ scope ++ [id] ∉ children t.
Proof.
  unfold run, new. case_bool_decide; [done|]. intros [= <- <-]. done.
Qed.

(** *** Bodies only append *)

Lemma extends_ret {A : Type} (x : A) : extends (mret x).
Proof. intros t. exists []. by rewrite app_nil_r. Qed.

Lemma extends_throw {A : Type} e : extends (@throw A e).
Proof. intros t. exists []. by rewrite app_nil_r. Qed.

Lemma extends_bind {A B : Type} (c : M A) (f : A → M B) :
  extends c → (∀ x, extends (f x)) → extends (c ≫= f).
Proof.
  intros Hc Hf t. rewrite run_bind. destruct (Hc t) as [a1 E1].
  destruct (run c t) as [[e|x] t1]; simpl in *; subst; [by eexists|].
  destruct (Hf x (t ++ a1)) as [a2 ->]. exists (a1 ++ a2).
  by rewrite app_assoc.
Qed.

Lemma extends_new scope id r : extends (new scope id r).
Proof.
  intros t. unfold run, new. case_bool_decide; simpl; [|by eexists].
  exists []. by rewrite app_nil_r.
Qed.

Lemma extends_addIngressRule sg p port d : extends (addIngressRule sg p port d).
Proof. intros t. by eexists. Qed.

Lemma extends_Tags_add c k v : extends (Tags_add c k v).
Proof. intros t. by eexists. Qed.

Lemma extends_parse {A : Type} (s : Zod.Schema A) v : extends (parse s v).
Proof.
  unfold parse. destruct (s [] v); [apply extends_ret|apply extends_throw].
Qed.

Lemma extends_try_catch {A : Type} (c : M A) h :
  extends c → (∀ e, extends (h e)) → extends (try_catch c h).
Proof.
  intros Hc Hh t. unfold run, try_catch. destruct (Hc t) as [a1 E1].
  unfold run in E1.
  destruct (c t) as [[e|x] t1]; simpl in *; subst; [|by eexists].
  destruct (Hh e (t ++ a1)) as [a2 E2]. unfold run in E2. rewrite E2.
  exists (a1 ++ a2). by rewrite app_assoc.
Qed.

Lemma extends_for_of {A : Type} (l : list A) body :
  (∀ x, extends (body x)) → extends (for_of l body).
Proof.
  intros Hb. induction l as [|x l IH]; simpl; [apply extends_ret|].
  apply extends_bind; auto.
Qed.

Lemma extends_run {A : Type} (c : M A) t o t' :
  extends c → run c t = (o, t') → ∃ added, t' = t ++ added.
Proof. intros Hc E. destruct (Hc t) as [a Ha]. rewrite E in Ha. eauto. Qed.

(** *** Bodies that differ only in resource properties *)

Lemma alike_ret {A : Type} (x : A) : alike (mret x) (mret x).
Proof. intros t1 t2 H. by split. Qed.

Lemma alike_throw {A : Type} e : alike (@throw A e) (throw e).
Proof. by intros t1 t2 H. Qed.

Lemma alike_bind {A B : Type} (c1 c2 : M A) (f1 f2 : A → M B) :
  alike c1 c2 → (∀ x, alike (f1 x) (f2 x)) →
  alike (c1 ≫= f1) (c2 ≫= f2).
Proof.
  intros Hc Hf t1 t2 H. rewrite !run_bind. specialize (Hc t1 t2 H).
  destruct (run c1 t1) as [[e1|x1] u1], (run c2 t2) as [[e2|x2] u2];
    simpl in Hc; try done.
  destruct Hc as [-> Hu]. by apply Hf.
Qed.

Lemma alike_new scope id r1 r2 : alike (new scope id r1) (new scope id r2).
Proof.
  intros t1 t2 H. unfold run, new. rewrite H.
  case_bool_decide; simpl; [done|]. split; [done|].
  by rewrite !children_child, H.
Qed.

Lemma alike_addIngressRule sg1 sg2 p1 p2 n1 n2 d1 d2 :
  alike (addIngressRule sg1 p1 n1 d1) (addIngressRule sg2 p2 n2 d2).
Proof.
  intros t1 t2 H. split; [done|]. by rewrite !children_app, H.
Qed.

Lemma alike_Tags_add c1 c2 k1 k2 v1 v2 :
  alike (Tags_add c1 k1 v1) (Tags_add c2 k2 v2).
Proof.
  intros t1 t2 H. split; [done|]. by rewrite !children_app, H.
Qed.

Lemma alike_for_of {A : Type} (l : list A) (g : A → A) body1 body2 :
  (∀ x, alike (body1 x) (body2 (g x))) →
  alike (for_of l body1) (for_of (g <$> l) body2).
Proof.
  intros Hb. induction l as [|x l IH]; simpl; [apply alike_ret|].
  apply alike_bind; auto.
Qed.

(** *** Loops *)

Lemma for_of_inr {A : Type} (l : list A) body t t' x :
  (∀ y, extends (body y)) →
  run (for_of l body) t = (inr (), t') → x ∈ l →
  ∃ t1 t2 rest, run (body x) t1 = (inr (), t2) ∧ t' = t2 ++ rest.
Proof.
  intros Hb. revert t. induction l as [|y l IH]; intros t E Hx.
  { by apply elem_of_nil in Hx. }
  simpl in E. apply bind_inr in E as ([] & t1 & E1 & E2).
  apply elem_of_cons in Hx as [->|Hx]; [|eauto].
  destruct (extends_run _ _ _ _ (extends_for_of l body Hb) E2) as [a ->].
  eauto.
Qed.

End CdkFacts.

(** ** The multi-service constructor *)

Section MultiFacts.
Import Cdk Multi.

Create HintDb extends_db discriminated.

Hint Resolve extends_ret extends_throw extends_new extends_addIngressRule
  extends_Tags_add extends_parse extends_try_catch extends_for_of
  : extends_db.

Ltac extends_tac :=
  repeat first
    [ apply extends_bind; [|intros ?]
    | progress auto with extends_db ].

Lemma extends_scaleOn target st id policy :
  extends (scaleOn target st id policy).
Proof.
  unfold scaleOn. destruct target as [percent|]; [|apply extends_ret].
  destruct (percent =? 0); extends_tac.
Qed.

Lemma extends_optionalAutoScaling app service s :
  extends (optionalAutoScaling app service s).
Proof.
  unfold optionalAutoScaling. destruct (autoScalingConfig s).
  - extends_tac; apply extends_scaleOn.
  - apply extends_ret.
Qed.

Lemma extends_createService props cl lb li s :
  extends (createService props cl lb li s).
Proof.
  unfold createService. extends_tac. apply extends_optionalAutoScaling.
Qed.

Lemma extends_Multi props region :
  extends (MultiServiceECSFargateLoadBalancedConstruct props region).
Proof.
  unfold MultiServiceECSFargateLoadBalancedConstruct. extends_tac.
  apply extends_for_of. intros s. apply extends_createService.
Qed.

Ltac alike_tac :=
  repeat first
    [ apply alike_bind; [|intros ?]
    | apply alike_new | apply alike_ret | apply alike_throw
    | apply alike_Tags_add | apply alike_addIngressRule ].

Lemma alike_scaleOn target st id policy :
  alike (scaleOn target st id policy) (scaleOn target st id policy).
Proof.
  unfold scaleOn. destruct target as [percent|]; [|apply alike_ret].
  destruct (percent =? 0); alike_tac.
Qed.

Lemma alike_optionalAutoScaling app service s :
  alike (optionalAutoScaling app service s)
    (optionalAutoScaling app service s).
Proof.
  unfold optionalAutoScaling. destruct (autoScalingConfig s).
  - alike_tac; apply alike_scaleOn.
  - apply alike_ret.
Qed.

(** The priority of a service plays no part in what [createService] may
    throw, nor in the ids it registers. *)
Lemma alike_createService props f cl lb li s z :
  alike (createService props cl lb li s)
    (createService (with_priorities f props) cl lb li (with_priority z s)).
Proof.
  unfold createService. simpl. alike_tac.
  exact (alike_optionalAutoScaling (appName props) _ s).
Qed.

Lemma ECSServiceConfigSchema_with_priority p z s :
  ECSServiceConfigSchema p (with_priority z s) = ECSServiceConfigSchema p s.
Proof. reflexivity. Qed.

Lemma array_min_with_priority n msg p f l :
  Zod.array_min ECSServiceConfigSchema n msg p
    ((λ s, with_priority (f s) s) <$> l)
  = Zod.array_min ECSServiceConfigSchema n msg p l.
Proof.
  unfold Zod.array_min. rewrite length_fmap. f_equal.
  unfold Zod.array. f_equal. rewrite imap_fmap. apply imap_ext.
  intros i s _. reflexivity.
Qed.

Lemma PropsSchema_with_priorities f props :
  MultiServiceECSFargateLoadBalancedConstructPropsSchema []
    (with_priorities f props)
  = MultiServiceECSFargateLoadBalancedConstructPropsSchema [] props.
Proof.
  unfold MultiServiceECSFargateLoadBalancedConstructPropsSchema.
  unfold Zod.object, Zod.prop. simpl.
  by rewrite array_min_with_priority.
Qed.

Lemma alike_parse props f :
  alike
    (try_catch
       (parse MultiServiceECSFargateLoadBalancedConstructPropsSchema props)
       (λ _, throw InvalidInputProperties))
    (try_catch
       (parse MultiServiceECSFargateLoadBalancedConstructPropsSchema
          (with_priorities f props))
       (λ _, throw InvalidInputProperties)).
Proof.
  intros t1 t2 H. unfold run, try_catch, parse.
  rewrite PropsSchema_with_priorities.
  destruct (MultiServiceECSFargateLoadBalancedConstructPropsSchema [] props);
    simpl; done.
Qed.

Lemma alike_Multi props f region :
  alike (MultiServiceECSFargateLoadBalancedConstruct props region)
    (MultiServiceECSFargateLoadBalancedConstruct (with_priorities f props)
       region).
Proof.
  unfold MultiServiceECSFargateLoadBalancedConstruct.
  apply alike_bind; [apply alike_parse|intros []]. simpl. alike_tac.
  apply (alike_for_of _ (λ s, with_priority (f s) s)).
  intros s. apply alike_createService.
Qed.

End MultiFacts.

Section MultiRuns.
Import Cdk Multi.

Ltac step H :=
  let Hc := fresh "Hc" in
  apply bind_inr in H as (? & ? & Hc & H);
  first
    [ apply new_inr in Hc as (-> & -> & ?)
    | injection Hc as <- <- ].

Lemma createService_inr props cl lb li s t t' :
  run (createService props cl lb li s) t = (inr (), t') →
  ([name s +:+ "-task-definition"] ∉ children t)
  ∧ ([name s +:+ "-task-definition"] ∈ children t')
  ∧ (Child (li ++ [appName props +:+ "-" +:+ name s +:+ "-tg"])
       (ApplicationTargetGroup
          (targetsOptions (appName props) (servicePath props s) s))) ∈ t'
  ∧ (Child [name s +:+ "-task-definition"; name s +:+ "-container"]
       (ContainerDefinition
          (containerOptions (appName props +:+ "-cluster")
             [name s +:+ "-log-group"] s))) ∈ t'.
Proof.
  intros H. unfold createService in H. do 7 step H.
  destruct (extends_run _ _ _ _
    (extends_bind _ _ (extends_optionalAutoScaling _ _ _)
       (λ _, extends_bind _ _ (extends_Tags_add _ _ _)
          (λ _, extends_bind _ _ (extends_Tags_add _ _ _)
             (λ _, extends_Tags_add _ _ _)))) H) as [added ->].
  split; [done|]. split; [|split].
  - rewrite !children_app. simpl. set_solver.
  - set_solver.
  - set_solver.
Qed.

Lemma createService_taken props cl lb li s t :
  [name s +:+ "-task-definition"] ∈ children t →
  ∃ e, fst (run (createService props cl lb li s) t) = inl e.
Proof.
  intros H. unfold createService. eexists.
  erewrite bind_inl; [done|]. by apply new_taken.
Qed.

Lemma extends_children {A : Type} (c : M A) t o t' p :
  extends c → run c t = (o, t') → p ∈ children t → p ∈ children t'.
Proof.
  intros Hc E Hp. destruct (extends_run _ _ _ _ Hc E) as [a ->].
  rewrite children_app. set_solver.
Qed.

(** Once the task definition of a service name is in the tree, a later
    service of that name stops the loop. *)
Lemma for_of_name_taken props cl lb li l t s :
  s ∈ l → [name s +:+ "-task-definition"] ∈ children t →
  ∃ e, fst (run (for_of l (createService props cl lb li)) t) = inl e.
Proof.
  revert t. induction l as [|x l IH]; intros t Hs Ht.
  { by apply elem_of_nil in Hs. }
  simpl. rewrite run_bind.
  destruct (run (createService props cl lb li x) t) as [[e|[]] t1] eqn:E;
    [by eexists|].
  apply elem_of_cons in Hs as [->|Hs].
  - destruct (createService_taken props cl lb li x t Ht) as [e He].
    rewrite E in He. done.
  - apply IH; [done|].
    eapply extends_children; [apply extends_createService|done..].
Qed.

Lemma for_of_same_name props cl lb li l t i j s1 s2 :
  i ≠ j → l !! i = Some s1 → l !! j = Some s2 → name s1 = name s2 →
  ∃ e, fst (run (for_of l (createService props cl lb li)) t) = inl e.
Proof.
  revert t i j. induction l as [|x l IH]; intros t i j Hij H1 H2 Hn.
  { done. }
  simpl. rewrite run_bind.
  destruct (run (createService props cl lb li x) t) as [[e|[]] t1] eqn:E;
    [by eexists|].
  apply createService_inr in E as E'. destruct E' as (_ & Hin & _ & _).
  destruct i as [|i], j as [|j]; simpl in *; simplify_eq.
  - apply (for_of_name_taken _ _ _ _ _ _ s2).
    + by eapply list_elem_of_lookup_2.
    + by rewrite <- Hn.
  - apply (for_of_name_taken _ _ _ _ _ _ s1).
    + by eapply list_elem_of_lookup_2.
    + by rewrite Hn.
  - apply (IH t1 i j); [congruence|done..].
Qed.

Lemma Multi_inr props region t' :
  run (MultiServiceECSFargateLoadBalancedConstruct props region) []
  = (inr (), t') →
  ∀ s, s ∈ ecsServices props →
    (Child (httpsListenerPath props
              ++ [appName props +:+ "-" +:+ name s +:+ "-tg"])
       (ApplicationTargetGroup
          (targetsOptions (appName props) (servicePath props s) s))) ∈ t'
    ∧ (Child [name s +:+ "-task-definition"; name s +:+ "-container"]
         (ContainerDefinition
            (containerOptions (appName props +:+ "-cluster")
               [name s +:+ "-log-group"] s))) ∈ t'.
Proof.
  intros H s Hs. unfold MultiServiceECSFargateLoadBalancedConstruct in H.
  apply bind_inr in H as (? & ? & _ & H).
  do 10 step H.
  eapply for_of_inr in H as (t1 & t2 & rest & E & ->);
    [|apply extends_createService|done].
  apply createService_inr in E as (_ & _ & E1 & E2). set_solver.
Qed.

End MultiRuns.

(** ** Construct ids *)

Section Ids.

Lemma list_ascii_of_string_app (a b : string) :
  String.list_ascii_of_string (a +:+ b)
  = String.list_ascii_of_string a ++ String.list_ascii_of_string b.
Proof. induction a as [|c a IH]; simpl; [done|]. by rewrite IH. Qed.

(** Two strings are told apart by their last characters. *)
Lemma differ_by_suffix (a b : string) :
  rev (String.list_ascii_of_string a) ≠ rev (String.list_ascii_of_string b) →
  a ≠ b.
Proof. intros H ->. done. Qed.

End Ids.

Ltac ids_differ :=
  let H := fresh in
  intros H;
  first
    [ discriminate H
    | injection H as H; revert H; apply differ_by_suffix;
      rewrite ?list_ascii_of_string_app, ?rev_app_distr; simpl;
      rewrite ?list_ascii_of_string_app, ?rev_app_distr; simpl;
      discriminate ].

Ltac fresh_id :=
  rewrite ?children_child; simpl;
  repeat (apply not_elem_of_cons; split; [ids_differ|]);
  apply not_elem_of_nil.

(** ** The single-service constructor *)

Section SingleFacts.
Import Cdk Single.

Lemma unlocated_ECSServicePropsSchema :
  Zod.unlocated ECSServicePropsSchema.
Proof.
  unfold ECSServicePropsSchema, ECSImageObjectSchema,
    ECSFargateConfigSchema, ECSLogGroupConfigSchema.
  repeat first
    [ apply unlocated_object; repeat constructor
    | apply unlocated_prop | apply unlocated_both
    | apply unlocated_optional | apply unlocated_string_min
    | apply unlocated_startsWith | apply unlocated_number_min
    | apply unlocated_number_max | apply unlocated_literals
    | apply unlocated_any ].
Qed.

(** A valid [props] holds a valid [props.service]: the second [parse] of
    the constructor cannot throw. *)
Lemma valid_props_valid_service props :
  SingleServicePrivateECSFargateConstructPropsSchema [] props = [] →
  ECSServicePropsSchema [] (service props) = [].
Proof.
  unfold SingleServicePrivateECSFargateConstructPropsSchema, Zod.object.
  simpl. rewrite !app_nil. intros (_ & _ & _ & H & _).
  revert H. apply unlocated_ECSServicePropsSchema.
Qed.

Lemma parse_valid {A : Type} (s : Zod.Schema A) v t :
  s [] v = [] → run (parse s v) t = (inr (), t).
Proof. unfold run, parse. by intros ->. Qed.

Lemma parse_invalid {A : Type} (s : Zod.Schema A) v t :
  s [] v ≠ [] → run (parse s v) t = (inl (ZodError (s [] v)), t).
Proof. unfold run, parse. by destruct (s [] v). Qed.

Lemma Single_valid props :
  SingleServicePrivateECSFargateConstructPropsSchema [] props = [] →
  run (SingleServicePrivateECSFargateConstruct props) []
  = (inr (), topology props).
Proof.
  intros Hv. unfold SingleServicePrivateECSFargateConstruct.
  rewrite run_bind, (parse_valid _ _ _ Hv).
  rewrite run_bind, new_fresh by fresh_id.
  rewrite run_bind, (parse_valid _ _ _ (valid_props_valid_service _ Hv)).
  rewrite run_bind, new_fresh by fresh_id.
  rewrite run_bind, new_fresh by fresh_id.
  rewrite run_bind, new_fresh by fresh_id.
  rewrite run_bind, new_fresh by fresh_id.
  rewrite run_bind. unfold addIngressRule at 1. simpl.
  rewrite run_bind, new_fresh by fresh_id.
  reflexivity.
Qed.

Lemma Single_invalid props :
  SingleServicePrivateECSFargateConstructPropsSchema [] props ≠ [] →
  run (SingleServicePrivateECSFargateConstruct props) []
  = (inl (ZodError
            (SingleServicePrivateECSFargateConstructPropsSchema [] props)),
     []).
Proof.
  intros Hv. unfold SingleServicePrivateECSFargateConstruct.
  by rewrite run_bind, (parse_invalid _ _ _ Hv).
Qed.

End SingleFacts.

(** ** Default resolution and environment *)

Section Resolution.
Import Cdk.

Lemma spread_lookup (base over : gmap string string) k :
  JS.spread base over !! k
  = match over !! k with Some v => Some v | None => base !! k end.
Proof.
  unfold JS.spread. rewrite lookup_union.
  destruct (over !! k), (base !! k); done.
Qed.

Lemma auto_lookup (port name version : string) k :
  ({[ "PORT" := port; "SERVICE_NAME" := name; "API_VERSION" := version ]}
     : gmap string string) !! k
  = if decide (k = "PORT") then Some port
    else if decide (k = "SERVICE_NAME") then Some name
    else if decide (k = "API_VERSION") then Some version
    else None.
Proof.
  repeat case_decide; subst; simplify_map_eq; done.
Qed.

End Resolution.

(** C1: the container environment is the three injected variables overlaid
    with the user's [envVariables]; on a key that both define, the user's
    value is the one kept. This holds for the multi-service and for the
    private single-service construct. *)
Theorem environment_overlay_user_wins :
  (∀ clusterName logGroup (s : Multi.ECSServiceConfig) (k : string),
     Cdk.environment (Multi.containerOptions clusterName logGroup s) !! k
     = match Multi.envVariables s !! k with
       | Some v => Some v
       | None =>
           if decide (k = "PORT")
           then Some (JS.number_to_string (Multi.port s))
           else if decide (k = "SERVICE_NAME") then Some (Multi.name s)
           else if decide (k = "API_VERSION") then Some (Multi.version s)
           else None
       end)
  ∧ (∀ clusterName logGroup (s : Single.ECSServiceProps) (k : string),
     Cdk.environment (Single.containerOptions clusterName logGroup s) !! k
     = match Single.envVariables s !! k with
       | Some v => Some v
       | None =>
           if decide (k = "PORT")
           then Some (JS.number_to_string (Single.port s))
           else if decide (k = "SERVICE_NAME") then Some (Single.name s)
           else if decide (k = "API_VERSION") then Some (Single.version s)
           else None
       end).
Proof.
  split; intros c lg s k; simpl.
  - unfold Multi.environmentVariables.
    by rewrite spread_lookup, auto_lookup.
  - unfold Single.environmentVariables.
    by rewrite spread_lookup, auto_lookup.
Qed.

(** The example of the specification: the service listens on 8080 and the
    user sets [PORT] to "9999". *)
Example environment_port_override :
  Multi.environmentVariables Inputs.intervalOnly !! "PORT" = Some "9999"
  ∧ Multi.environmentVariables Inputs.intervalOnly !! "SERVICE_NAME"
    = Some "x"
  ∧ Multi.environmentVariables Index.paymentService !! "PORT"
    = Some "8081".
Proof. repeat split; vm_compute; reflexivity. Qed.

(** C2, as stated, fails: with a health check that gives only the path and
    [intervalSeconds: 10], the omitted timeout, retries and start period do
    take the built-in defaults 5, 3 and 30. *)
Lemma partial_health_check_inherits_defaults :
  HealthCheckConfig.timeoutSeconds
    (Multi.healthCheckConfig Inputs.intervalOnly) = None
  ∧ HealthCheckConfig.retries
      (Multi.healthCheckConfig Inputs.intervalOnly) = None
  ∧ HealthCheckConfig.startPeriodSeconds
      (Multi.healthCheckConfig Inputs.intervalOnly) = None
  ∧ Multi.ECSServiceConfigSchema [] Inputs.intervalOnly = []
  ∧ Multi.intervalSeconds Inputs.intervalOnly = 10
  ∧ Multi.timeoutSeconds Inputs.intervalOnly = 5
  ∧ Multi.retries Inputs.intervalOnly = 3
  ∧ Multi.startPeriodSeconds Inputs.intervalOnly = 30.
Proof. repeat split; reflexivity. Qed.

(** C2, amended: defaults are resolved field by field. A health check that
    gives only the path and a positive interval keeps that interval, and
    each omitted field (timeout, retries, start period) takes its built-in
    default 5, 3, 30, in the container health check; the target group takes
    the same interval and timeout. The interval is positive because
    [cdk.Duration.seconds] accepts no negative amount and [||] replaces
    zero. *)
Theorem partial_health_check_defaults_per_field
    (s : Multi.ECSServiceConfig) (i : Z) (clusterName : string)
    (logGroup service : Cdk.Path) (appName : string) :
  HealthCheckConfig.intervalSeconds (Multi.healthCheckConfig s) = Some i →
  0 < i →
  HealthCheckConfig.timeoutSeconds (Multi.healthCheckConfig s) = None →
  HealthCheckConfig.retries (Multi.healthCheckConfig s) = None →
  HealthCheckConfig.startPeriodSeconds (Multi.healthCheckConfig s) = None →
  let hc := Cdk.healthCheck (Multi.containerOptions clusterName logGroup s) in
  let tg := Cdk.tgHealthCheck (Multi.targetsOptions appName service s) in
  Cdk.interval hc = i ∧ Cdk.timeout hc = 5 ∧ Cdk.retries hc = 3
  ∧ Cdk.startPeriod hc = 30
  ∧ Cdk.tgInterval tg = i ∧ Cdk.tgTimeout tg = 5.
Proof.
  intros Hi Hnz Ht Hr Hs. simpl.
  unfold Multi.intervalSeconds, Multi.timeoutSeconds, Multi.retries,
    Multi.startPeriodSeconds.
  rewrite Hi, Ht, Hr, Hs. simpl.
  destruct (Z.eqb_spec i 0); [lia|done].
Qed.

Lemma partial_health_check_defaults_per_field_witness :
  let hc := Cdk.healthCheck
              (Multi.containerOptions "my-app-cluster" ["x-log-group"]
                 Inputs.intervalOnly) in
  let tg := Cdk.tgHealthCheck
              (Multi.targetsOptions "my-app" ["my-app-x-service"]
                 Inputs.intervalOnly) in
  Cdk.interval hc = 10 ∧ Cdk.timeout hc = 5 ∧ Cdk.retries hc = 3
  ∧ Cdk.startPeriod hc = 30
  ∧ Cdk.tgInterval tg = 10 ∧ Cdk.tgTimeout tg = 5.
Proof.
  apply (partial_health_check_defaults_per_field Inputs.intervalOnly 10);
    [reflexivity | lia | reflexivity..].
Defined.

(** C3 fails on an explicit zero: the schema accepts
    [startPeriodSeconds: 0] (and likewise a zero interval, timeout or
    retry count), yet the resolved value is the default, because [||]
    treats 0 like an omitted field. *)
Theorem explicit_zero_is_replaced_by_default :
  Multi.ECSServiceConfigSchema [] Inputs.zeroStartPeriod = []
  ∧ HealthCheckConfig.startPeriodSeconds
      (Multi.healthCheckConfig Inputs.zeroStartPeriod) = Some 0
  ∧ Multi.startPeriodSeconds Inputs.zeroStartPeriod = 30
  ∧ Cdk.startPeriod
      (Cdk.healthCheck
         (Multi.containerOptions "my-app-cluster" ["x-log-group"]
            Inputs.zeroStartPeriod)) = 30.
Proof. repeat split; reflexivity. Qed.

(** What does hold: an explicit value other than zero is kept, for each of
    the four fields. *)
Lemma explicit_nonzero_is_kept (v : option Z) (x d : Z) :
  v = Some x → x ≠ 0 → JS.or_number v d = x.
Proof. intros -> H. simpl. destruct (Z.eqb_spec x 0); done. Qed.

Lemma explicit_zero_is_dropped (d : Z) : JS.or_number (Some 0) d = d.
Proof. reflexivity. Qed.

(** ** Port validation *)

Section Ports.
Import Multi.

Lemma port_valid_iff p s :
  ECSServiceConfigSchema [] s = [] →
  ECSServiceConfigSchema [] (with_port p s) = [] ↔ 1 ≤ p ≤ 65535.
Proof.
  unfold ECSServiceConfigSchema, Zod.object, Zod.prop. simpl.
  unfold Zod.both, Zod.number_min, Zod.number_max.
  rewrite !app_nil, !check_nil.
  rewrite !Z.leb_le. intuition.
Qed.

End Ports.

(** C9: port validation includes both ends of the range. A service that is
    valid stays valid with port 1 or port 65535; with port 0 or port 65536
    parsing throws a [ZodError]. *)
Theorem port_bounds_inclusive (s : Multi.ECSServiceConfig) (t : Cdk.Tree) :
  Multi.ECSServiceConfigSchema [] s = [] →
  Cdk.run (Cdk.parse Multi.ECSServiceConfigSchema (Multi.with_port 1 s)) t
  = (inr (), t)
  ∧ Cdk.run
      (Cdk.parse Multi.ECSServiceConfigSchema (Multi.with_port 65535 s)) t
    = (inr (), t)
  ∧ (∃ issues,
       Cdk.run (Cdk.parse Multi.ECSServiceConfigSchema (Multi.with_port 0 s)) t
       = (inl (Cdk.ZodError issues), t))
  ∧ (∃ issues,
       Cdk.run
         (Cdk.parse Multi.ECSServiceConfigSchema (Multi.with_port 65536 s)) t
       = (inl (Cdk.ZodError issues), t)).
Proof.
  intros Hv. repeat split.
  - apply parse_valid. apply port_valid_iff; [done|lia].
  - apply parse_valid. apply port_valid_iff; [done|lia].
  - eexists. apply parse_invalid. rewrite port_valid_iff by done. lia.
  - eexists. apply parse_invalid. rewrite port_valid_iff by done. lia.
Qed.

Lemma port_bounds_inclusive_witness :
  Cdk.run
    (Cdk.parse Multi.ECSServiceConfigSchema
       (Multi.with_port 1 Index.paymentService)) []
  = (inr (), [])
  ∧ Cdk.run
      (Cdk.parse Multi.ECSServiceConfigSchema
         (Multi.with_port 65535 Index.paymentService)) []
    = (inr (), [])
  ∧ (∃ issues,
       Cdk.run
         (Cdk.parse Multi.ECSServiceConfigSchema
            (Multi.with_port 0 Index.paymentService)) []
       = (inl (Cdk.ZodError issues), []))
  ∧ (∃ issues,
       Cdk.run
         (Cdk.parse Multi.ECSServiceConfigSchema
            (Multi.with_port 65536 Index.paymentService)) []
       = (inl (Cdk.ZodError issues), [])).
Proof.
  apply (port_bounds_inclusive Index.paymentService []). reflexivity.
Defined.

(** C10: without [image.labels] the container gets the three labels
    [cluster], [service] and [version]; a supplied map is used as it is,
    with nothing merged in. This holds for both constructs. *)
Theorem docker_labels_default_or_replace :
  (∀ clusterName logGroup (s : Multi.ECSServiceConfig),
     Cdk.dockerLabels (Multi.containerOptions clusterName logGroup s)
     = match Image.labels (Multi.image s) with
       | None =>
           {[ "cluster" := clusterName; "service" := Multi.name s;
              "version" := Multi.version s ]}
       | Some labels => labels
       end)
  ∧ (∀ clusterName logGroup (s : Single.ECSServiceProps),
     Cdk.dockerLabels (Single.containerOptions clusterName logGroup s)
     = match Image.labels (Single.image s) with
       | None =>
           {[ "cluster" := clusterName; "service" := Single.name s;
              "version" := Single.version s ]}
       | Some labels => labels
       end).
Proof.
  split; intros c lg s; simpl;
    by destruct (Image.labels _).
Qed.

(** ** Validation failures *)

Section Failures.
Import Cdk Multi.

Lemma Multi_invalid props region :
  MultiServiceECSFargateLoadBalancedConstructPropsSchema [] props ≠ [] →
  run (MultiServiceECSFargateLoadBalancedConstruct props region) []
  = (inl InvalidInputProperties, []).
Proof.
  intros Hv. unfold MultiServiceECSFargateLoadBalancedConstruct.
  apply bind_inl. unfold run, try_catch.
  pose proof (parse_invalid _ _ [] Hv) as E. unfold run in E.
  by rewrite E.
Qed.

Lemma Multi_inr_valid props region t :
  run (MultiServiceECSFargateLoadBalancedConstruct props region) []
  = (inr (), t) →
  MultiServiceECSFargateLoadBalancedConstructPropsSchema [] props = [].
Proof.
  intros H.
  destruct (MultiServiceECSFargateLoadBalancedConstructPropsSchema [] props)
    eqn:E; [done|].
  rewrite Multi_invalid in H; [done|]. by rewrite E.
Qed.

End Failures.

(** C4: when [props] violates a rule of the schema, the constructor throws
    before it creates anything: the multi-service constructor throws its
    "Invalid input properties" error and the single-service constructor the
    [ZodError] with the issues found, and in both cases [this] is left
    without any child, ingress rule or tag. *)
Theorem invalid_props_build_nothing
    (multi : Multi.MultiServiceECSFargateLoadBalancedConstructProps)
    (region : string)
    (single : Single.SingleServicePrivateECSFargateConstructProps) :
  (Multi.MultiServiceECSFargateLoadBalancedConstructPropsSchema [] multi
   ≠ [] →
   Cdk.run (Multi.MultiServiceECSFargateLoadBalancedConstruct multi region) []
   = (inl Multi.InvalidInputProperties, []))
  ∧ (Single.SingleServicePrivateECSFargateConstructPropsSchema [] single
     ≠ [] →
     Cdk.run (Single.SingleServicePrivateECSFargateConstruct single) []
     = (inl (Cdk.ZodError
          (Single.SingleServicePrivateECSFargateConstructPropsSchema []
             single)),
        [])).
Proof. split; [apply Multi_invalid|apply Single_invalid]. Qed.

Lemma invalid_props_build_nothing_witness :
  Cdk.run
    (Multi.MultiServiceECSFargateLoadBalancedConstruct Inputs.shortAppName
       "us-east-1") []
  = (inl Multi.InvalidInputProperties, [])
  ∧ Cdk.run
      (Multi.MultiServiceECSFargateLoadBalancedConstruct
         (Inputs.withServices []) "us-east-1") []
    = (inl Multi.InvalidInputProperties, [])
  ∧ snd (Cdk.run
           (Single.SingleServicePrivateECSFargateConstruct
              Inputs.portOutOfRange) [])
    = [].
Proof.
  split; [|split].
  - apply (invalid_props_build_nothing Inputs.shortAppName "us-east-1"
             Inputs.portOutOfRange).
    vm_compute. discriminate.
  - apply (invalid_props_build_nothing (Inputs.withServices []) "us-east-1"
             Inputs.portOutOfRange).
    vm_compute. discriminate.
  - rewrite (proj2 (invalid_props_build_nothing Inputs.shortAppName
                      "us-east-1" Inputs.portOutOfRange)).
    + reflexivity.
    + vm_compute. discriminate.
Defined.

(** C5: a topology with two services of the same name is rejected while the
    constructor runs. The schema does not compare names; the second service
    asks for a task definition whose id, derived from the name, is already
    taken under [this], and the construct tree throws. *)
Theorem duplicate_service_name_rejected
    (props : Multi.MultiServiceECSFargateLoadBalancedConstructProps)
    (region : string) (i j : nat) (s1 s2 : Multi.ECSServiceConfig) :
  i ≠ j →
  Multi.ecsServices props !! i = Some s1 →
  Multi.ecsServices props !! j = Some s2 →
  Multi.name s1 = Multi.name s2 →
  ∃ e, fst (Cdk.run
              (Multi.MultiServiceECSFargateLoadBalancedConstruct props region)
              []) = inl e.
Proof.
  intros Hij H1 H2 Hn.
  unfold Multi.MultiServiceECSFargateLoadBalancedConstruct.
  do 11 (rewrite run_bind;
         match goal with
         | |- context [match Cdk.run ?c ?t with _ => _ end] =>
             destruct (Cdk.run c t) as [[?|?] ?]; [by eexists|]
         end).
  by eapply for_of_same_name.
Qed.

Lemma duplicate_service_name_rejected_witness :
  ∃ e, fst (Cdk.run
              (Multi.MultiServiceECSFargateLoadBalancedConstruct
                 Inputs.sameName "us-east-1") []) = inl e.
Proof.
  apply (duplicate_service_name_rejected Inputs.sameName "us-east-1" 0 1
           Index.authService
           (Multi.with_priority 2 (Multi.with_port 9090 Index.authService)));
    [lia | reflexivity..].
Defined.

(** The schema itself accepts the two services of the same name; the error
    is the one of the construct tree. *)
Example same_name_error :
  Multi.MultiServiceECSFargateLoadBalancedConstructPropsSchema []
    Inputs.sameName = []
  ∧ fst (Cdk.run
           (Multi.MultiServiceECSFargateLoadBalancedConstruct Inputs.sameName
              "us-east-1") [])
    = inl (Cdk.DuplicateConstruct [] "auth-service-task-definition").
Proof. split; vm_compute; reflexivity. Qed.

(** The topology of [lib/index.ts] is accepted, and its two target groups
    carry the priorities 1 and 2. *)
Example index_topology_accepted :
  let outcome :=
    Cdk.run
      (Multi.MultiServiceECSFargateLoadBalancedConstruct Index.multiProps
         "us-east-1") [] in
  fst outcome = inr ()
  ∧ omap (λ r, match r with
               | Cdk.ApplicationTargetGroup options =>
                   Some (Cdk.targetGroupName options, Cdk.priority options)
               | _ => None
               end) (Cdk.resources (snd outcome))
    = [("my-app-auth-service-tg", 1); ("my-app-payment-service-tg", 2)].
Proof. split; vm_compute; reflexivity. Qed.

(** C6: listener priorities are not compared with each other. Take any
    topology that the constructor accepts and give its services any
    priorities [f] of at least 1, equal ones included: the schema still
    passes, the constructor still returns, and every service has its target
    group under the HTTPS listener with the priority given to it. The
    priorities are at least 1 because [addTargets] accepts no smaller
    one. *)
Theorem shared_priority_not_rejected
    (props : Multi.MultiServiceECSFargateLoadBalancedConstructProps)
    (region : string) (f : Multi.ECSServiceConfig → Z) (t : Cdk.Tree) :
  Cdk.run (Multi.MultiServiceECSFargateLoadBalancedConstruct props region) []
  = (inr (), t) →
  (∀ s, s ∈ Multi.ecsServices props → 1 ≤ f s) →
  Multi.MultiServiceECSFargateLoadBalancedConstructPropsSchema []
    (Multi.with_priorities f props) = []
  ∧ ∃ t',
      Cdk.run
        (Multi.MultiServiceECSFargateLoadBalancedConstruct
           (Multi.with_priorities f props) region) []
      = (inr (), t')
      ∧ ∀ s, s ∈ Multi.ecsServices props →
          ∃ options,
            Cdk.Child
              (Multi.httpsListenerPath props
               ++ [Multi.appName props +:+ "-" +:+ Multi.name s +:+ "-tg"])
              (Cdk.ApplicationTargetGroup options) ∈ t'
            ∧ Cdk.priority options = f s
            ∧ Cdk.targets options = [Multi.servicePath props s].
Proof.
  intros H _.
  pose proof (alike_Multi props f region [] [] eq_refl) as Ha.
  rewrite H in Ha.
  destruct (Cdk.run
              (Multi.MultiServiceECSFargateLoadBalancedConstruct
                 (Multi.with_priorities f props) region) [])
    as [[e|[]] t'] eqn:E; simpl in Ha; [done|].
  split; [by eapply Multi_inr_valid|].
  exists t'. split; [done|]. intros s Hs.
  eexists. split; [|split].
  - apply (Multi_inr _ _ _ E (Multi.with_priority (f s) s)).
    simpl. by apply (list_elem_of_fmap_2 (λ s, Multi.with_priority (f s) s)).
  - reflexivity.
  - reflexivity.
Qed.

Lemma shared_priority_not_rejected_witness :
  ∃ t',
    Cdk.run
      (Multi.MultiServiceECSFargateLoadBalancedConstruct
         (Multi.with_priorities (λ _, 7) Index.multiProps) "us-east-1") []
    = (inr (), t')
    ∧ ∀ s, s ∈ Multi.ecsServices Index.multiProps →
        ∃ options,
          Cdk.Child
            (Multi.httpsListenerPath Index.multiProps
             ++ [Multi.appName Index.multiProps +:+ "-" +:+ Multi.name s
                 +:+ "-tg"])
            (Cdk.ApplicationTargetGroup options) ∈ t'
          ∧ Cdk.priority options = 7
          ∧ Cdk.targets options = [Multi.servicePath Index.multiProps s].
Proof.
  refine (proj2 (shared_priority_not_rejected Index.multiProps "us-east-1"
                   (λ _, 7) _ _ _)).
  - vm_compute. reflexivity.
  - intros s _. lia.
Defined.

(** ** Autoscaling *)

Section Scaling.
Import Cdk Multi.

(** A target accepted by the schema is at least 1, hence truthy. *)
Lemma valid_targets s cfg :
  ECSServiceConfigSchema [] s = [] →
  autoScalingConfig s = Some cfg →
  AutoScalingConfig.targetCpuUtilization cfg ≠ Some 0
  ∧ AutoScalingConfig.targetMemoryUtilization cfg ≠ Some 0.
Proof.
  unfold ECSServiceConfigSchema, Zod.object, Zod.prop. simpl.
  intros H E. rewrite E in H. simpl in H.
  rewrite !app_nil in H. destruct_and!.
  split; intros E'; rewrite E' in *; done.
Qed.


End Scaling.



(** A service without the block gets no scaling construct at all. *)
Example no_autoscaling_block :
  Multi.scaling "my-app" ["my-app-payment-service-service"]
    Index.paymentService = [].
Proof. reflexivity. Qed.

(** ** The private topology *)

(** C8: the single-service construct never creates a certificate, a DNS
    resource or a load-balancing resource, whatever its input; on a valid
    input it returns with the tree [Single.topology]: one cluster, one
    Fargate service without public address, and one ingress rule, whose
    source is the address range of the network. *)
Theorem private_topology_has_no_public_entry
    (props : Single.SingleServicePrivateECSFargateConstructProps) :
  let outcome :=
    Cdk.run (Single.SingleServicePrivateECSFargateConstruct props) [] in
  Forall
    (λ r, Cdk.is_certificate r = false ∧ Cdk.is_dns r = false
          ∧ Cdk.is_load_balancing r = false)
    (Cdk.resources (snd outcome))
  ∧ (Single.SingleServicePrivateECSFargateConstructPropsSchema [] props
     = [] →
     outcome = (inr (), Single.topology props)
     ∧ length (filter Cdk.is_cluster (Cdk.resources (snd outcome))) = 1%nat
     ∧ length (filter Cdk.is_service (Cdk.resources (snd outcome))) = 1%nat
     ∧ Cdk.peer <$> Cdk.ingress_rules (snd outcome)
       = [Cdk.Ipv4 (IVpc.vpcCidrBlock (Single.vpc props))]).
Proof.
  simpl.
  destruct (Single.SingleServicePrivateECSFargateConstructPropsSchema [] props)
    eqn:E.
  - rewrite (Single_valid props E). split.
    + simpl. repeat constructor.
    + intros _. repeat split.
  - rewrite Single_invalid by (by rewrite E). split; [constructor|done].
Qed.

Lemma private_topology_has_no_public_entry_witness :
  Cdk.run (Single.SingleServicePrivateECSFargateConstruct Index.singleProps)
    []
  = (inr (), Single.topology Index.singleProps).
Proof.
  apply (private_topology_has_no_public_entry Index.singleProps).
  reflexivity.
Defined.

(** * Further properties *)

(** ** Plans *)

Section Plans.
Import Cdk Topology.

Lemma duplicate_child scope id :
  duplicate (scope ++ [id]) = DuplicateConstruct scope id.
Proof. unfold duplicate. by rewrite removelast_last, last_last. Qed.

Lemma register_app p1 p2 t :
  register (p1 ++ p2) t
  = match register p1 t with
    | (inr _, t') => register p2 t'
    | (inl e, t') => (inl e, t')
    end.
Proof.
  revert t. induction p1 as [|e p1 IH]; intros t; simpl; [done|].
  destruct e; simpl; [case_bool_decide; [done|]|..]; apply IH.
Qed.

Lemma follows_ret : follows (mret ()) [].
Proof. done. Qed.

Lemma follows_new scope id r (k : Path → M unit) plan :
  follows (k (scope ++ [id])) plan →
  follows (new scope id r ≫= k) (Child (scope ++ [id]) r :: plan).
Proof.
  intros H t. rewrite run_bind. simpl.
  destruct (decide (scope ++ [id] ∈ children t)) as [Hin|Hin].
  - rewrite new_taken, bool_decide_eq_true_2 by done.
    by rewrite duplicate_child.
  - rewrite new_fresh, bool_decide_eq_false_2 by done. apply H.
Qed.

Lemma follows_addIngressRule sg p port d (k : M unit) plan :
  follows k plan →
  follows (addIngressRule sg p port d ;; k)
    (Ingress sg {| peer := p; tcp := port; ruleDescription := d |} :: plan).
Proof. intros H t. rewrite run_bind. apply H. Qed.

Lemma follows_Tags_add c key v (k : M unit) plan :
  follows k plan → follows (Tags_add c key v ;; k) (Tag c key v :: plan).
Proof. intros H t. rewrite run_bind. apply H. Qed.

Lemma follows_Tags_add_last c key v :
  follows (Tags_add c key v) [Tag c key v].
Proof. by intros t. Qed.

Lemma follows_seq (c k : M unit) p1 p2 :
  follows c p1 → follows k p2 → follows (c ;; k) (p1 ++ p2).
Proof.
  intros H1 H2 t. rewrite run_bind, register_app, H1.
  destruct (register p1 t) as [[e|[]] t1]; [done|apply H2].
Qed.

Lemma follows_for_of {A : Type} (l : list A) body (plan : A → Tree) :
  (∀ x, x ∈ l → follows (body x) (plan x)) →
  follows (for_of l body) (concat (plan <$> l)).
Proof.
  induction l as [|x l IH]; intros H; simpl; [apply follows_ret|].
  apply follows_seq; [apply H; left|].
  apply IH. intros y Hy. apply H. by right.
Qed.

End Plans.

(** ** What registering a plan does *)

Section Register.
Import Cdk Topology.

Lemma register_children_fresh plan t :
  NoDup (children plan) →
  (∀ p, p ∈ children plan → p ∉ children t) →
  register plan t = (inr (), t ++ plan).
Proof.
  revert t. induction plan as [|e plan IH]; intros t Hnd Hf; simpl.
  { by rewrite app_nil_r. }
  destruct e as [p r| |]; simpl in *.
  - apply NoDup_cons in Hnd as [Hp Hnd].
    rewrite bool_decide_eq_false_2 by (apply Hf; left).
    rewrite IH, <- app_assoc; [done..|].
    intros q Hq. rewrite children_child, not_elem_of_app.
    split; [apply Hf; by right|]. rewrite list_elem_of_singleton.
    by intros ->.
  - rewrite IH, <- app_assoc; [done..|].
    intros q Hq. rewrite children_app. simpl. rewrite app_nil_r. auto.
  - rewrite IH, <- app_assoc; [done..|].
    intros q Hq. rewrite children_app. simpl. rewrite app_nil_r. auto.
Qed.

Lemma register_inr plan t t' :
  register plan t = (inr (), t') →
  t' = t ++ plan ∧ NoDup (children plan)
  ∧ ∀ p, p ∈ children plan → p ∉ children t.
Proof.
  revert t. induction plan as [|e plan IH]; intros t H; simpl in *.
  { injection H as <-. rewrite app_nil_r. split; [done|].
    split; [constructor|]. intros p Hp. by apply elem_of_nil in Hp. }
  destruct e as [p r| |]; simpl in *.
  - case_bool_decide as Hp; [done|].
    apply IH in H as (-> & Hnd & Hf). rewrite <- app_assoc.
    split; [done|]. split.
    + apply NoDup_cons. split; [|done]. intros Hin.
      apply (Hf _ Hin). rewrite children_child, elem_of_app.
      right. by apply list_elem_of_singleton.
    + intros q [->|Hq]%elem_of_cons; [done|].
      specialize (Hf q Hq). rewrite children_child, not_elem_of_app in Hf.
      by destruct Hf.
  - apply IH in H as (-> & Hnd & Hf). rewrite <- app_assoc.
    split; [done|]. split; [done|]. intros q Hq. specialize (Hf q Hq).
    rewrite children_app in Hf. simpl in Hf. by rewrite app_nil_r in Hf.
  - apply IH in H as (-> & Hnd & Hf). rewrite <- app_assoc.
    split; [done|]. split; [done|]. intros q Hq. specialize (Hf q Hq).
    rewrite children_app in Hf. simpl in Hf. by rewrite app_nil_r in Hf.
Qed.

End Register.

(** ** The multi-service constructor follows its plan *)

Section MultiPlan.
Import Cdk Multi Topology.

Lemma unlocated_ECSServiceConfigSchema :
  Zod.unlocated ECSServiceConfigSchema.
Proof.
  unfold ECSServiceConfigSchema.
  repeat first
    [ apply unlocated_object; repeat constructor
    | apply unlocated_prop | apply unlocated_both
    | apply unlocated_optional | apply unlocated_string_min
    | apply unlocated_startsWith | apply unlocated_number_min
    | apply unlocated_number_max | apply unlocated_literals
    | apply unlocated_any ].
Qed.

Lemma string_min_nil n msg p s :
  Zod.string_min n msg p s = [] ↔ (n ≤ String.length s)%nat.
Proof. unfold Zod.string_min. by rewrite check_nil, Nat.leb_le. Qed.

Lemma number_min_nil lo msg p v : Zod.number_min lo msg p v = [] ↔ lo ≤ v.
Proof. unfold Zod.number_min. by rewrite check_nil, Z.leb_le. Qed.

Lemma number_max_nil hi msg p v : Zod.number_max hi msg p v = [] ↔ v ≤ hi.
Proof. unfold Zod.number_max. by rewrite check_nil, Z.leb_le. Qed.

Lemma literals_nil l p v : Zod.literals l p v = [] ↔ v ∈ l.
Proof. unfold Zod.literals. by rewrite check_nil, bool_decide_eq_true. Qed.

Lemma array_nil {A : Type} (elem : Zod.Schema A) p l :
  Zod.unlocated elem →
  Zod.array elem p l = [] ↔ Forall (λ x, elem [] x = []) l.
Proof.
  intros Hu. unfold Zod.array. revert p.
  induction l as [|x l IH] using rev_ind; intros p.
  { simpl. split; [constructor|done]. }
  rewrite imap_app, concat_app, app_nil, Forall_app, IH. simpl.
  rewrite app_nil_r, Forall_singleton.
  split; intros [? ?]; split; try done; eapply Hu; done.
Qed.

(** The rules on [props] itself, apart from those on the services. *)
Lemma PropsSchema_nil props :
  MultiServiceECSFargateLoadBalancedConstructPropsSchema [] props = [] ↔
  (3 ≤ String.length (appName props))%nat
  ∧ (1 ≤ String.length (tagEnv props))%nat
  ∧ IVpc.isVpc (vpc props) = true
  ∧ (1 ≤ String.length (hostedZoneId props))%nat
  ∧ (1 ≤ String.length (domainName props))%nat
  ∧ (1 ≤ String.length (apiSubdomainName props))%nat
  ∧ (1 ≤ length (ecsServices props))%nat
  ∧ Forall (λ s, ECSServiceConfigSchema [] s = []) (ecsServices props).
Proof.
  unfold MultiServiceECSFargateLoadBalancedConstructPropsSchema,
    Zod.object, Zod.prop, Zod.array_min, VpcSchema.
  cbn [concat fmap list_fmap]. rewrite !app_nil, !string_min_nil, !check_nil.
  rewrite (array_nil _ _ _ unlocated_ECSServiceConfigSchema).
  rewrite Nat.leb_le. tauto.
Qed.

Lemma follows_scaleOn target st id policy p :
  target ≠ Some 0 → p = st ++ [id] →
  follows (scaleOn target st id policy)
    match target with
    | Some percent => [Child p (policy percent)]
    | None => []
    end.
Proof.
  intros Hz ->. unfold scaleOn. destruct target as [percent|]; [|done].
  destruct (Z.eqb_spec percent 0); [congruence|].
  apply follows_new, follows_ret.
Qed.

Lemma follows_optionalAutoScaling app service s :
  ECSServiceConfigSchema [] s = [] →
  follows (optionalAutoScaling app service s) (scaling app service s).
Proof.
  intros Hv. unfold optionalAutoScaling, scaling.
  destruct (autoScalingConfig s) as [cfg|] eqn:E; [|done].
  destruct (valid_targets s cfg Hv E) as [Hc Hm].
  apply follows_new.
  apply follows_seq; apply follows_scaleOn; by rewrite <- ?app_assoc.
Qed.

Lemma follows_createService props s :
  ECSServiceConfigSchema [] s = [] →
  follows
    (createService props [appName props +:+ "-cluster"]
       (loadBalancerPath props) (httpsListenerPath props) s)
    (serviceEntries props s).
Proof.
  intros Hv. unfold createService, serviceEntries, serviceCore.
  cbv zeta. simpl app.
  apply (follows_new this). apply (follows_new this).
  apply (follows_new [_]).
  apply (follows_new this). apply follows_addIngressRule.
  apply (follows_new this). apply (follows_new (httpsListenerPath props)).
  apply follows_seq; [by apply follows_optionalAutoScaling|].
  do 2 apply follows_Tags_add. apply follows_Tags_add_last.
Qed.

Lemma Multi_run props region t :
  run (MultiServiceECSFargateLoadBalancedConstruct props region) t
  = match MultiServiceECSFargateLoadBalancedConstructPropsSchema [] props
    with
    | [] => register (multi props region) t
    | _ => (inl InvalidInputProperties, t)
    end.
Proof.
  destruct (MultiServiceECSFargateLoadBalancedConstructPropsSchema [] props)
    eqn:E.
  2: { unfold MultiServiceECSFargateLoadBalancedConstruct.
       apply bind_inl. unfold run, try_catch, parse. by rewrite E. }
  apply PropsSchema_nil in E as Hv.
  destruct Hv as (_ & _ & _ & _ & _ & _ & _ & Hs).
  unfold MultiServiceECSFargateLoadBalancedConstruct.
  rewrite run_bind.
  replace (run (try_catch _ _) t) with (@inr Exception _ (), t)
    by (unfold run, try_catch, parse; by rewrite E).
  revert t. unfold multi, sharedEntries. cbv zeta.
  apply (follows_new this). apply (follows_new this).
  apply (follows_new this). apply (follows_new this).
  apply (follows_new this). apply (follows_new this).
  apply (follows_new this). apply follows_Tags_add.
  apply (follows_new (loadBalancerPath props)).
  apply (follows_new (loadBalancerPath props)).
  apply follows_for_of. intros s Hin.
  apply follows_createService.
  rewrite Forall_forall in Hs. by apply Hs.
Qed.

End MultiPlan.

(** ** Views of the planned topology *)

Section Views.
Import Cdk Multi Topology View.

Lemma resources_app t1 t2 : resources (t1 ++ t2) = resources t1 ++ resources t2.
Proof. apply omap_app. Qed.

Lemma target_groups_app t1 t2 :
  target_groups (t1 ++ t2) = target_groups t1 ++ target_groups t2.
Proof. unfold target_groups. by rewrite resources_app, omap_app. Qed.

Lemma count_app P t1 t2 : count P (t1 ++ t2) = (count P t1 + count P t2)%nat.
Proof.
  unfold count. by rewrite resources_app, filter_app, length_app.
Qed.

Lemma view_concat {A X : Type} (v : Tree → list X) (g : A → Tree)
    (h : A → X) (l : list A) :
  (∀ a b, v (a ++ b) = v a ++ v b) → v [] = [] →
  (∀ x, v (g x) = [h x]) →
  v (concat (g <$> l)) = h <$> l.
Proof.
  intros Happ Hnil Hg. induction l as [|x l IH]; [done|].
  change (v (g x ++ concat (g <$> l)) = h x :: (h <$> l)).
  by rewrite Happ, Hg, IH.
Qed.

Lemma count_concat {A : Type} P (g : A → Tree) (c : nat) (l : list A) :
  (∀ x, count P (g x) = c) →
  count P (concat (g <$> l)) = (length l * c)%nat.
Proof.
  intros Hg. induction l as [|x l IH]; [done|].
  change (count P (g x ++ concat (g <$> l)) = (S (length l) * c)%nat).
  rewrite count_app, Hg, IH. lia.
Qed.

Lemma count_scaling P app service s :
  blind P → count P (scaling app service s) = 0%nat.
Proof.
  intros (H1 & H2 & H3). unfold scaling, count.
  destruct (autoScalingConfig s) as [cfg|]; [|done].
  destruct (AutoScalingConfig.targetCpuUtilization cfg),
    (AutoScalingConfig.targetMemoryUtilization cfg); simpl;
    rewrite ?filter_cons, ?H1, ?H2, ?H3; done.
Qed.

Lemma target_groups_scaling app service s :
  target_groups (scaling app service s) = [].
Proof.
  unfold scaling. destruct (autoScalingConfig s) as [cfg|]; [|done].
  by destruct (AutoScalingConfig.targetCpuUtilization cfg),
    (AutoScalingConfig.targetMemoryUtilization cfg).
Qed.

Lemma count_serviceEntries P props s :
  blind P →
  count P (serviceEntries props s) = count P (serviceCore props s).
Proof.
  intros HP. unfold serviceEntries. cbv zeta.
  rewrite !count_app, count_scaling by done.
  unfold count at 2. simpl. lia.
Qed.

Lemma count_multi P props region (c : nat) :
  blind P →
  (∀ s, count P (serviceCore props s) = c) →
  count P (multi props region)
  = (count P (sharedEntries props region)
     + length (ecsServices props) * c)%nat.
Proof.
  intros HP Hc. unfold multi. rewrite count_app. f_equal.
  apply count_concat. intros s. by rewrite count_serviceEntries.
Qed.

Lemma target_groups_multi props region :
  target_groups (multi props region)
  = (λ s, targetsOptions (appName props) (servicePath props s) s)
    <$> ecsServices props.
Proof.
  unfold multi. rewrite target_groups_app. simpl.
  apply view_concat; [apply target_groups_app|done|].
  intros s. unfold serviceEntries. cbv zeta.
  by rewrite !target_groups_app, target_groups_scaling.
Qed.

Lemma Multi_inr_plan props region t :
  run (MultiServiceECSFargateLoadBalancedConstruct props region) []
  = (inr (), t) →
  t = multi props region.
Proof.
  rewrite Multi_run.
  destruct (MultiServiceECSFargateLoadBalancedConstructPropsSchema []
              props); [|done].
  by intros (-> & _)%register_inr.
Qed.

End Views.

(** X3: a topology that the multi-service constructor accepts has exactly
    one cluster, one load balancer, one certificate, one alias record, two
    listeners and two parameters, however many services it has; and it has
    one Fargate service, one task definition and one target group per
    entry of [props.ecsServices]. *)
Theorem multi_resource_counts
    (props : Multi.MultiServiceECSFargateLoadBalancedConstructProps)
    (region : string) (t : Cdk.Tree) :
  Cdk.run (Multi.MultiServiceECSFargateLoadBalancedConstruct props region) []
  = (inr (), t) →
  View.count Cdk.is_cluster t = 1%nat
  ∧ View.count View.is_load_balancer t = 1%nat
  ∧ View.count Cdk.is_certificate t = 1%nat
  ∧ View.count View.is_record t = 1%nat
  ∧ View.count View.is_listener t = 2%nat
  ∧ View.count View.is_parameter t = 2%nat
  ∧ View.count Cdk.is_service t = length (Multi.ecsServices props)
  ∧ View.count View.is_task_definition t = length (Multi.ecsServices props)
  ∧ length (View.target_groups t) = length (Multi.ecsServices props).
Proof.
  intros ->%Multi_inr_plan.
  rewrite target_groups_multi, length_fmap.
  rewrite (count_multi Cdk.is_cluster _ _ 0) by done.
  rewrite (count_multi View.is_load_balancer _ _ 0) by done.
  rewrite (count_multi Cdk.is_certificate _ _ 0) by done.
  rewrite (count_multi View.is_record _ _ 0) by done.
  rewrite (count_multi View.is_listener _ _ 0) by done.
  rewrite (count_multi View.is_parameter _ _ 0) by done.
  rewrite (count_multi Cdk.is_service _ _ 1) by done.
  rewrite (count_multi View.is_task_definition _ _ 1) by done.
  unfold View.count. simpl. repeat split; lia.
Qed.

Lemma multi_resource_counts_witness :
  let t :=
    snd (Cdk.run
           (Multi.MultiServiceECSFargateLoadBalancedConstruct Index.multiProps
              "us-east-1") []) in
  View.count Cdk.is_cluster t = 1%nat
  ∧ View.count View.is_load_balancer t = 1%nat
  ∧ View.count Cdk.is_certificate t = 1%nat
  ∧ View.count View.is_record t = 1%nat
  ∧ View.count View.is_listener t = 2%nat
  ∧ View.count View.is_parameter t = 2%nat
  ∧ View.count Cdk.is_service t = 2%nat
  ∧ View.count View.is_task_definition t = 2%nat
  ∧ length (View.target_groups t) = 2%nat.
Proof.
  apply (multi_resource_counts Index.multiProps "us-east-1").
  vm_compute. reflexivity.
Defined.

(** X5: in an accepted multi-service topology the target groups under the
    HTTPS listener are those of the services, in the order of
    [props.ecsServices]; the one of a service routes the single path
    pattern [/<name>/<version>/*] to the port of the service, at the
    priority of the service. *)
Theorem multi_target_groups_route_by_name_and_version
    (props : Multi.MultiServiceECSFargateLoadBalancedConstructProps)
    (region : string) (t : Cdk.Tree) :
  Cdk.run (Multi.MultiServiceECSFargateLoadBalancedConstruct props region) []
  = (inr (), t) →
  (λ o, (Cdk.targetGroupName o, Cdk.pathPatterns o, Cdk.port o,
         Cdk.priority o, Cdk.targets o)) <$> View.target_groups t
  = (λ s, (Multi.appName props +:+ "-" +:+ Multi.name s +:+ "-tg",
           ["/" +:+ Multi.name s +:+ "/" +:+ Multi.version s +:+ "/*"],
           Multi.port s, Multi.priority s, [Multi.servicePath props s]))
    <$> Multi.ecsServices props.
Proof.
  intros ->%Multi_inr_plan. rewrite target_groups_multi.
  rewrite <- list_fmap_compose. done.
Qed.

Lemma multi_target_groups_route_by_name_and_version_witness :
  (λ o, (Cdk.targetGroupName o, Cdk.pathPatterns o, Cdk.port o,
         Cdk.priority o, Cdk.targets o))
    <$> View.target_groups
          (snd (Cdk.run
                  (Multi.MultiServiceECSFargateLoadBalancedConstruct
                     Index.multiProps "us-east-1") []))
  = [ ("my-app-auth-service-tg", ["/auth-service/v1/*"], 8080, 1,
       [["my-app-auth-service-service"]]);
      ("my-app-payment-service-tg", ["/payment-service/v1/*"], 8081, 2,
       [["my-app-payment-service-service"]]) ].
Proof.
  apply (multi_target_groups_route_by_name_and_version Index.multiProps
           "us-east-1").
  vm_compute. reflexivity.
Defined.

(** ** The schemas as rules *)

Section SchemaRules.
Import Zod.

Lemma startsWith_nil pre p s :
  startsWith pre p s = [] ↔ String.prefix pre s = true.
Proof. unfold startsWith. by rewrite check_nil. Qed.

Lemma prefix_slash_nonempty s :
  String.prefix "/" s = true → (1 ≤ String.length s)%nat.
Proof. destruct s; simpl; [done|lia]. Qed.

Lemma range_nil lo hi msg1 msg2 p v :
  both (number_min lo msg1) (number_max hi msg2) p v = [] ↔ lo ≤ v ≤ hi.
Proof.
  unfold both. by rewrite app_nil, number_min_nil, number_max_nil.
Qed.

Lemma optional_literals_nil l p o :
  optional (literals l) p o = [] ↔ ∀ v, o = Some v → v ∈ l.
Proof.
  destruct o as [v|]; simpl; [|by split].
  rewrite literals_nil. split; [by intros H v' [= <-]|]. intros H. by apply H.
Qed.

Lemma optional_range_nil lo hi msg1 msg2 p o :
  optional (both (number_min lo msg1) (number_max hi msg2)) p o = []
  ↔ ∀ v, o = Some v → lo ≤ v ≤ hi.
Proof.
  destruct o as [v|]; simpl; [|by split].
  rewrite range_nil. split; [by intros H v' [= <-]|]. intros H. by apply H.
Qed.

Lemma object_cons {A : Type} (s : Schema A) props p v :
  object (s :: props) p v = s p v ++ object props p v.
Proof. reflexivity. Qed.

Lemma object_nil {A : Type} p (v : A) : object [] p v = [].
Proof. reflexivity. Qed.

Lemma prop_eq {A B : Type} key (get : A → B) s p v :
  prop key get s p v = s (p ++ [key]) (get v).
Proof. reflexivity. Qed.

Lemma optional_any_nil {A : Type} p (o : option A) :
  optional any p o = [].
Proof. by destruct o. Qed.

Lemma image_nil p i :
  object [
    prop "path" Image.path
      (string_min 1 (Some "Docker image path is required."));
    prop "name" Image.name (optional any);
    prop "labels" Image.labels (optional any)
  ] p i = [] ↔ Rules.image i.
Proof.
  unfold Rules.image.
  rewrite !object_cons, object_nil, !prop_eq, !optional_any_nil.
  rewrite !app_nil, string_min_nil. tauto.
Qed.

Lemma fargate_nil p o :
  optional (object [
    prop "cpu" FargateConfig.cpu
      (optional (literals [256; 512; 1024; 2048; 4096]));
    prop "memoryLimitMiB" FargateConfig.memoryLimitMiB
      (optional (literals
         [512; 1024; 2048; 3072; 4096; 5120; 6144; 7168; 8192; 16384;
          30720]))
  ]) p o = [] ↔ Rules.fargateConfig o.
Proof.
  unfold Rules.fargateConfig. destruct o as [c|]; [|by split].
  cbn [optional]. rewrite !object_cons, object_nil, !prop_eq.
  rewrite !app_nil, !optional_literals_nil. split.
  - intros (H1 & H2 & _) c' [= <-]. done.
  - intros H. destruct (H c eq_refl). done.
Qed.

Lemma logGroup_nil p o :
  optional (object [
    prop "logGroupName" LogGroupConfig.logGroupName
      (string_min 1 (Some "Log group name is required."));
    prop "removalPolicy" LogGroupConfig.removalPolicy any;
    prop "retention" LogGroupConfig.retention any
  ]) p o = [] ↔ Rules.logGroupConfig o.
Proof.
  unfold Rules.logGroupConfig. destruct o as [c|]; [|by split].
  cbn [optional]. rewrite !object_cons, object_nil, !prop_eq.
  rewrite !app_nil, string_min_nil. unfold any. split.
  - intros (H1 & _) c' [= <-]. done.
  - intros H. split; [by apply H|done].
Qed.

Lemma autoScaling_nil p o :
  optional (object [
    prop "minCapacity" AutoScalingConfig.minCapacity
      (number_min 1 (Some "Minimum capacity must be at least 1."));
    prop "maxCapacity" AutoScalingConfig.maxCapacity
      (number_min 1 (Some "Maximum capacity must be at least 1."));
    prop "targetCpuUtilization" AutoScalingConfig.targetCpuUtilization
      (optional (both (number_min 1 None) (number_max 100 None)));
    prop "targetMemoryUtilization"
      AutoScalingConfig.targetMemoryUtilization
      (optional (both (number_min 1 None) (number_max 100 None)))
  ]) p o = [] ↔ Rules.autoScalingConfig o.
Proof.
  unfold Rules.autoScalingConfig. destruct o as [c|]; [|by split].
  cbn [optional]. rewrite !object_cons, object_nil, !prop_eq.
  rewrite !app_nil, !number_min_nil, !optional_range_nil. split.
  - intros (H1 & H2 & H3 & H4 & _) c' [= <-]. done.
  - intros H. destruct (H c eq_refl) as (? & ? & ? & ?). done.
Qed.

Lemma health_path_nil msg p s :
  both (string_min 1 msg) (startsWith "/") p s = []
  ↔ String.prefix "/" s = true.
Proof.
  unfold both. rewrite app_nil, string_min_nil, startsWith_nil.
  split; [tauto|]. intros H. split; [by apply prefix_slash_nonempty|done].
Qed.

Lemma healthCheck_nil p c :
  object [
    prop "path" HealthCheckConfig.path
      (both (string_min 1 (Some "Health check path is required."))
         (startsWith "/"));
    prop "intervalSeconds" HealthCheckConfig.intervalSeconds
      (optional any);
    prop "timeoutSeconds" HealthCheckConfig.timeoutSeconds (optional any);
    prop "retries" HealthCheckConfig.retries (optional any);
    prop "startPeriodSeconds" HealthCheckConfig.startPeriodSeconds
      (optional any)
  ] p c = [] ↔ String.prefix "/" (HealthCheckConfig.path c) = true.
Proof.
  rewrite !object_cons, object_nil, !prop_eq, !optional_any_nil.
  rewrite !app_nil, health_path_nil. tauto.
Qed.

Lemma multiService_nil p s :
  Multi.ECSServiceConfigSchema p s = [] ↔ Rules.multiService s.
Proof.
  unfold Multi.ECSServiceConfigSchema, Rules.multiService, Rules.common.
  rewrite !object_cons, object_nil, !prop_eq.
  rewrite !app_nil, image_nil, healthCheck_nil, fargate_nil, logGroup_nil,
    autoScaling_nil.
  rewrite !string_min_nil, range_nil, number_min_nil.
  unfold any. tauto.
Qed.

Lemma singleService_nil p s :
  Single.ECSServicePropsSchema p s = [] ↔ Rules.singleService s.
Proof.
  unfold Single.ECSServicePropsSchema, Rules.singleService, Rules.common,
    Single.ECSImageObjectSchema, Single.ECSFargateConfigSchema,
    Single.ECSLogGroupConfigSchema.
  rewrite !object_cons, object_nil, !prop_eq.
  rewrite !app_nil, image_nil, fargate_nil, logGroup_nil.
  rewrite !string_min_nil, range_nil, number_min_nil, health_path_nil.
  unfold any. tauto.
Qed.

End SchemaRules.

Section SchemaFacts.
Import Zod.

Lemma Single_PropsSchema_nil props :
  Single.SingleServicePrivateECSFargateConstructPropsSchema [] props = [] ↔
  (3 ≤ String.length (Single.appName props))%nat
  ∧ (1 ≤ String.length (Single.tagEnv props))%nat
  ∧ IVpc.isVpc (Single.vpc props) = true
  ∧ Rules.singleService (Single.service props).
Proof.
  unfold Single.SingleServicePrivateECSFargateConstructPropsSchema,
    Single.VpcSchema.
  rewrite !object_cons, object_nil, !prop_eq.
  rewrite !app_nil, !string_min_nil, check_nil, singleService_nil. tauto.
Qed.

Lemma Multi_PropsSchema_rules props :
  Multi.MultiServiceECSFargateLoadBalancedConstructPropsSchema [] props = []
  ↔ (3 ≤ String.length (Multi.appName props))%nat
    ∧ (1 ≤ String.length (Multi.tagEnv props))%nat
    ∧ IVpc.isVpc (Multi.vpc props) = true
    ∧ (1 ≤ String.length (Multi.hostedZoneId props))%nat
    ∧ (1 ≤ String.length (Multi.domainName props))%nat
    ∧ (1 ≤ String.length (Multi.apiSubdomainName props))%nat
    ∧ Multi.ecsServices props ≠ []
    ∧ Forall Rules.multiService (Multi.ecsServices props).
Proof.
  rewrite PropsSchema_nil.
  assert (Forall (λ s, Multi.ECSServiceConfigSchema [] s = [])
            (Multi.ecsServices props)
          ↔ Forall Rules.multiService (Multi.ecsServices props)) as ->.
  { apply Forall_iff. intros s. apply multiService_nil. }
  assert ((1 ≤ length (Multi.ecsServices props))%nat
          ↔ Multi.ecsServices props ≠ []) as ->.
  { destruct (Multi.ecsServices props); simpl; split; try done; lia. }
  done.
Qed.

End SchemaFacts.

(** X6: [props] of the multi-service construct passes validation exactly
    when the application name has at least 3 characters, the environment
    tag, hosted zone id, domain name and API subdomain are not empty, the
    network is an instance of [ec2.Vpc], there is at least one service, and
    every service obeys the rules of [Rules.multiService]: a non-empty name
    and version, a port from 1 to 65535, a desired count of at least 1, a
    non-empty image path, a health-check path that starts with a slash, and
    well-formed compute, log-group and autoscaling blocks where given. *)
Theorem multi_validation_rules
    (props : Multi.MultiServiceECSFargateLoadBalancedConstructProps) :
  fst (Cdk.run
         (Cdk.parse Multi.MultiServiceECSFargateLoadBalancedConstructPropsSchema
            props) [])
  = inr ()
  ↔ (3 ≤ String.length (Multi.appName props))%nat
    ∧ (1 ≤ String.length (Multi.tagEnv props))%nat
    ∧ IVpc.isVpc (Multi.vpc props) = true
    ∧ (1 ≤ String.length (Multi.hostedZoneId props))%nat
    ∧ (1 ≤ String.length (Multi.domainName props))%nat
    ∧ (1 ≤ String.length (Multi.apiSubdomainName props))%nat
    ∧ Multi.ecsServices props ≠ []
    ∧ Forall Rules.multiService (Multi.ecsServices props).
Proof.
  rewrite <- Multi_PropsSchema_rules. unfold Cdk.run, Cdk.parse.
  by destruct (Multi.MultiServiceECSFargateLoadBalancedConstructPropsSchema
                 [] props).
Qed.

(** X7: [props] of the single-service construct passes validation exactly
    when the application name has at least 3 characters, the environment
    tag is not empty, the network is an instance of [ec2.Vpc], and the
    service obeys the rules of [Rules.singleService]. *)
Theorem single_validation_rules
    (props : Single.SingleServicePrivateECSFargateConstructProps) :
  fst (Cdk.run
         (Cdk.parse Single.SingleServicePrivateECSFargateConstructPropsSchema
            props) [])
  = inr ()
  ↔ (3 ≤ String.length (Single.appName props))%nat
    ∧ (1 ≤ String.length (Single.tagEnv props))%nat
    ∧ IVpc.isVpc (Single.vpc props) = true
    ∧ Rules.singleService (Single.service props).
Proof.
  rewrite <- Single_PropsSchema_nil. unfold Cdk.run, Cdk.parse.
  by destruct (Single.SingleServicePrivateECSFargateConstructPropsSchema
                 [] props).
Qed.

(** X8: the two constructs validate the fields that their services share
    in the same way: a service passes the multi-service schema exactly when,
    seen as the service of the single-service construct, it passes that
    schema, and its autoscaling block, if any, is well formed. The listener
    priority and the health-check timings are never looked at. *)
Theorem service_schemas_agree (s : Multi.ECSServiceConfig) :
  Multi.ECSServiceConfigSchema [] s = []
  ↔ Single.ECSServicePropsSchema [] (Vary.asSingle s) = []
    ∧ Rules.autoScalingConfig (Multi.autoScalingConfig s).
Proof. by rewrite multiService_nil, singleService_nil. Qed.

(** X9: the schema checks the minimum and the maximum capacity of an
    autoscaling block each on its own and never against each other: with
    the other fields of a valid service unchanged, the service passes the
    schema exactly when both capacities are at least 1. A minimum above the
    maximum passes the validation of the constructor. *)
Theorem autoscaling_bounds_not_compared
    (s : Multi.ECSServiceConfig) (c : AutoScalingConfig.t) (lo hi : Z) :
  Multi.ECSServiceConfigSchema [] s = [] →
  Multi.autoScalingConfig s = Some c →
  let s' :=
    Vary.autoScalingConfig
      (Some {| AutoScalingConfig.minCapacity := lo;
               AutoScalingConfig.maxCapacity := hi;
               AutoScalingConfig.targetCpuUtilization :=
                 AutoScalingConfig.targetCpuUtilization c;
               AutoScalingConfig.targetMemoryUtilization :=
                 AutoScalingConfig.targetMemoryUtilization c |}) s in
  Multi.ECSServiceConfigSchema [] s' = [] ↔ 1 ≤ lo ∧ 1 ≤ hi.
Proof.
  intros Hv Hc. cbv zeta.
  apply multiService_nil in Hv as [Hcommon Ha].
  destruct (Ha c Hc) as (_ & _ & Hcpu & Hmem).
  rewrite multiService_nil. split.
  - intros [_ H]. destruct (H _ eq_refl) as (? & ? & _). done.
  - intros [Hlo Hhi]. split; [done|]. intros c' [= <-]. done.
Qed.

Lemma autoscaling_bounds_not_compared_witness :
  Multi.ECSServiceConfigSchema []
    (Vary.autoScalingConfig
       (Some {| AutoScalingConfig.minCapacity := 5;
                AutoScalingConfig.maxCapacity := 1;
                AutoScalingConfig.targetCpuUtilization := None;
                AutoScalingConfig.targetMemoryUtilization := Some 80 |})
       Inputs.memoryOnly)
  = [].
Proof.
  apply (autoscaling_bounds_not_compared Inputs.memoryOnly
           {| AutoScalingConfig.minCapacity := 1;
              AutoScalingConfig.maxCapacity := 3;
              AutoScalingConfig.targetCpuUtilization := None;
              AutoScalingConfig.targetMemoryUtilization := Some 80 |}
           5 1);
    [reflexivity | reflexivity | lia].
Defined.

(** X10: the schema never pairs CPU with memory: a valid service stays valid
    with any CPU value of the list together with any memory value of the
    list, and the task definition is created with exactly these two
    values. *)
Theorem cpu_and_memory_not_paired
    (props : Multi.MultiServiceECSFargateLoadBalancedConstructProps)
    (s : Multi.ECSServiceConfig) (cpu memory : Z) :
  Multi.ECSServiceConfigSchema [] s = [] →
  cpu ∈ [256; 512; 1024; 2048; 4096] →
  memory ∈ [512; 1024; 2048; 3072; 4096; 5120; 6144; 7168; 8192; 16384;
            30720] →
  let s' :=
    Vary.fargateConfig
      (Some {| FargateConfig.cpu := Some cpu;
               FargateConfig.memoryLimitMiB := Some memory |}) s in
  Multi.ECSServiceConfigSchema [] s' = []
  ∧ head (Topology.serviceCore props s')
    = Some (Cdk.Child [Multi.name s +:+ "-task-definition"]
              (Cdk.FargateTaskDefinition memory cpu
                 (Multi.name s +:+ "-task-family") "LINUX" "ARM64")).
Proof.
  intros Hv Hcpu Hmem. split.
  - apply multiService_nil in Hv as [Hcommon Ha].
    apply multiService_nil. split; [|done].
    destruct Hcommon as (? & ? & ? & ? & ? & ? & _ & ?).
    repeat (split; [done|]). split; [|done].
    intros c' [= <-]. simpl. split; by intros ? [= <-].
  - simpl. unfold JS.or_number.
    assert (cpu ≠ 0) as Hc.
    { intros ->. apply list_elem_of_In in Hcpu. simpl in Hcpu. lia. }
    assert (memory ≠ 0) as Hm.
    { intros ->. apply list_elem_of_In in Hmem. simpl in Hmem. lia. }
    by destruct (Z.eqb_spec cpu 0), (Z.eqb_spec memory 0).
Qed.

Lemma cpu_and_memory_not_paired_witness :
  let s' :=
    Vary.fargateConfig
      (Some {| FargateConfig.cpu := Some 256;
               FargateConfig.memoryLimitMiB := Some 30720 |})
      Index.paymentService in
  Multi.ECSServiceConfigSchema [] s' = []
  ∧ head (Topology.serviceCore Index.multiProps s')
    = Some (Cdk.Child ["payment-service-task-definition"]
              (Cdk.FargateTaskDefinition 30720 256
                 "payment-service-task-family" "LINUX" "ARM64")).
Proof.
  apply (cpu_and_memory_not_paired Index.multiProps Index.paymentService
           256 30720).
  - reflexivity.
  - apply list_elem_of_In. simpl. tauto.
  - apply list_elem_of_In. simpl. tauto.
Defined.

(** X11: for a valid service the compute defaults apply field by field and
    only to omitted fields: the task definition gets the given CPU, or 512
    when none is given, and the given memory, or 1024 when none is given;
    both values are always among the allowed ones. *)
Theorem compute_defaults_per_field
    (props : Multi.MultiServiceECSFargateLoadBalancedConstructProps)
    (s : Multi.ECSServiceConfig) :
  Multi.ECSServiceConfigSchema [] s = [] →
  let cpu := default 512 (Multi.fargateConfig s ≫= FargateConfig.cpu) in
  let memory :=
    default 1024 (Multi.fargateConfig s ≫= FargateConfig.memoryLimitMiB) in
  head (Topology.serviceCore props s)
  = Some (Cdk.Child [Multi.name s +:+ "-task-definition"]
            (Cdk.FargateTaskDefinition memory cpu
               (Multi.name s +:+ "-task-family") "LINUX" "ARM64"))
  ∧ cpu ∈ [256; 512; 1024; 2048; 4096]
  ∧ memory ∈ [512; 1024; 2048; 3072; 4096; 5120; 6144; 7168; 8192; 16384;
              30720].
Proof.
  intros Hv. apply multiService_nil in Hv as [Hcommon _].
  destruct Hcommon as (_ & _ & _ & _ & _ & _ & Hf & _).
  unfold Rules.fargateConfig in Hf. simpl.
  destruct (Multi.fargateConfig s) as [c|]; simpl.
  2: { split; [done|]. split; apply list_elem_of_In; simpl; tauto. }
  destruct (Hf c eq_refl) as [Hcpu Hmem].
  destruct (FargateConfig.cpu c) as [cpu|],
    (FargateConfig.memoryLimitMiB c) as [memory|]; simpl.
  - specialize (Hcpu cpu eq_refl). specialize (Hmem memory eq_refl).
    split; [|done].
    assert (cpu ≠ 0) as Hc.
    { intros ->. apply list_elem_of_In in Hcpu. simpl in Hcpu. lia. }
    assert (memory ≠ 0) as Hm.
    { intros ->. apply list_elem_of_In in Hmem. simpl in Hmem. lia. }
    by destruct (Z.eqb_spec cpu 0), (Z.eqb_spec memory 0).
  - specialize (Hcpu cpu eq_refl).
    split; [|split; [done|apply list_elem_of_In; simpl; tauto]].
    assert (cpu ≠ 0) as Hc.
    { intros ->. apply list_elem_of_In in Hcpu. simpl in Hcpu. lia. }
    by destruct (Z.eqb_spec cpu 0).
  - specialize (Hmem memory eq_refl).
    split; [|split; [apply list_elem_of_In; simpl; tauto|done]].
    assert (memory ≠ 0) as Hm.
    { intros ->. apply list_elem_of_In in Hmem. simpl in Hmem. lia. }
    by destruct (Z.eqb_spec memory 0).
  - split; [done|]. split; apply list_elem_of_In; simpl; tauto.
Qed.

Lemma compute_defaults_per_field_witness :
  let s :=
    Vary.fargateConfig
      (Some {| FargateConfig.cpu := Some 256;
               FargateConfig.memoryLimitMiB := None |})
      Index.paymentService in
  head (Topology.serviceCore Index.multiProps s)
  = Some (Cdk.Child ["payment-service-task-definition"]
            (Cdk.FargateTaskDefinition 1024 256
               "payment-service-task-family" "LINUX" "ARM64")).
Proof.
  apply (compute_defaults_per_field Index.multiProps
           (Vary.fargateConfig
              (Some {| FargateConfig.cpu := Some 256;
                       FargateConfig.memoryLimitMiB := None |})
              Index.paymentService)).
  reflexivity.
Defined.

Section SingleOutcome.
Import Cdk Single.

Lemma Single_run props :
  run (SingleServicePrivateECSFargateConstruct props) []
  = match SingleServicePrivateECSFargateConstructPropsSchema [] props with
    | [] => (inr (), topology props)
    | issues => (inl (ZodError issues), [])
    end.
Proof.
  destruct (SingleServicePrivateECSFargateConstructPropsSchema [] props)
    eqn:E.
  - by apply Single_valid.
  - rewrite Single_invalid by (by rewrite E). by rewrite E.
Qed.

End SingleOutcome.

(** X13: the single-service constructor throws only the [ZodError] of its
    first validation, and only before it has built anything: the second
    validation, of [props.service] after the cluster is created, can never
    fail, and no construct id of the constructor can clash with another. *)
Theorem single_throws_only_before_building
    (props : Single.SingleServicePrivateECSFargateConstructProps)
    (e : Cdk.Exception) (t : Cdk.Tree) :
  Cdk.run (Single.SingleServicePrivateECSFargateConstruct props) []
  = (inl e, t) →
  Single.SingleServicePrivateECSFargateConstructPropsSchema [] props ≠ []
  ∧ e = Cdk.ZodError
          (Single.SingleServicePrivateECSFargateConstructPropsSchema []
             props)
  ∧ t = [].
Proof.
  rewrite Single_run.
  destruct (Single.SingleServicePrivateECSFargateConstructPropsSchema []
              props); [done|].
  by intros [= <- <-].
Qed.

Lemma single_throws_only_before_building_witness :
  Single.SingleServicePrivateECSFargateConstructPropsSchema []
    Inputs.portOutOfRange ≠ []
  ∧ fst (Cdk.run
           (Single.SingleServicePrivateECSFargateConstruct
              Inputs.portOutOfRange) [])
    = inl (Cdk.ZodError
             (Single.SingleServicePrivateECSFargateConstructPropsSchema []
                Inputs.portOutOfRange))
  ∧ snd (Cdk.run
           (Single.SingleServicePrivateECSFargateConstruct
              Inputs.portOutOfRange) [])
    = [].
Proof.
  destruct (single_throws_only_before_building Inputs.portOutOfRange
              (Cdk.ZodError
                 (Single.SingleServicePrivateECSFargateConstructPropsSchema
                    [] Inputs.portOutOfRange))
              [] eq_refl) as (H1 & H2 & H3).
  split; [exact H1|]. split; reflexivity.
Defined.

(** X14: both constructors reject a network that is not an instance of
    [ec2.Vpc], such as an imported one, although the type of [props.vpc]
    allows it: the multi-service constructor throws its "Invalid input
    properties" error, the single-service constructor a [ZodError] with an
    issue at [vpc], and neither builds anything. *)
Theorem imported_network_rejected
    (multi : Multi.MultiServiceECSFargateLoadBalancedConstructProps)
    (region : string)
    (single : Single.SingleServicePrivateECSFargateConstructProps) :
  (IVpc.isVpc (Multi.vpc multi) = false →
   Cdk.run (Multi.MultiServiceECSFargateLoadBalancedConstruct multi region) []
   = (inl Multi.InvalidInputProperties, []))
  ∧ (IVpc.isVpc (Single.vpc single) = false →
     ∃ issues,
       Cdk.run (Single.SingleServicePrivateECSFargateConstruct single) []
       = (inl (Cdk.ZodError issues), [])
       ∧ {| Zod.code := Zod.custom; Zod.path := ["vpc"];
            Zod.message := None |} ∈ issues).
Proof.
  split; intros Hv.
  - apply Multi_invalid. rewrite PropsSchema_nil. rewrite Hv.
    by intros (_ & _ & ? & _).
  - eexists. split.
    + apply Single_invalid. rewrite Single_PropsSchema_nil, Hv.
      by intros (_ & _ & ? & _).
    + unfold Single.SingleServicePrivateECSFargateConstructPropsSchema.
      rewrite !object_cons, !prop_eq. unfold Single.VpcSchema at 1.
      rewrite Hv. simpl Zod.check.
      rewrite !elem_of_app. right. right. left. by left.
Qed.

Lemma imported_network_rejected_witness :
  Cdk.run
    (Multi.MultiServiceECSFargateLoadBalancedConstruct
       (Vary.multiVpc Vary.importedVpc Index.multiProps) "us-east-1") []
  = (inl Multi.InvalidInputProperties, [])
  ∧ ∃ issues,
      Cdk.run
        (Single.SingleServicePrivateECSFargateConstruct
           (Vary.singleVpc Vary.importedVpc Index.singleProps)) []
      = (inl (Cdk.ZodError issues), [])
      ∧ {| Zod.code := Zod.custom; Zod.path := ["vpc"];
           Zod.message := None |} ∈ issues.
Proof.
  split.
  - apply (imported_network_rejected
             (Vary.multiVpc Vary.importedVpc Index.multiProps) "us-east-1"
             (Vary.singleVpc Vary.importedVpc Index.singleProps)).
    reflexivity.
  - apply (imported_network_rejected
             (Vary.multiVpc Vary.importedVpc Index.multiProps) "us-east-1"
             (Vary.singleVpc Vary.importedVpc Index.singleProps)).
    reflexivity.
Defined.

Section PortIssues.

Lemma port_too_big path s :
  65535 < Single.port s →
  {| Zod.code := Zod.too_big; Zod.path := path ++ ["port"];
     Zod.message := Some "Port must be between 1 and 65535." |}
  ∈ Single.ECSServicePropsSchema path s.
Proof.
  intros Hp. unfold Single.ECSServicePropsSchema.
  rewrite !object_cons, !prop_eq, !elem_of_app. right. left.
  unfold Zod.both, Zod.number_max, Zod.check.
  rewrite elem_of_app. right.
  destruct (Z.leb_spec (Single.port s) 65535); [lia|]. by left.
Qed.

Lemma port_too_small path s :
  Single.port s < 1 →
  {| Zod.code := Zod.too_small; Zod.path := path ++ ["port"];
     Zod.message := None |}
  ∈ Single.ECSServicePropsSchema path s.
Proof.
  intros Hp. unfold Single.ECSServicePropsSchema.
  rewrite !object_cons, !prop_eq, !elem_of_app. right. left.
  unfold Zod.both, Zod.number_min, Zod.check.
  rewrite elem_of_app. left.
  destruct (Z.leb_spec 1 (Single.port s)); [lia|]. by left.
Qed.

Lemma service_issue_in_props issue props :
  issue ∈ Single.ECSServicePropsSchema ["service"] (Single.service props) →
  issue ∈ Single.SingleServicePrivateECSFargateConstructPropsSchema []
            props.
Proof.
  intros H. unfold Single.SingleServicePrivateECSFargateConstructPropsSchema.
  rewrite !object_cons, !prop_eq, !elem_of_app. do 3 right. by left.
Qed.

End PortIssues.

(** X15: the error of the single-service constructor locates a bad port: a
    port above 65535 gives an issue at [service.port] with the message
    "Port must be between 1 and 65535."; a port below 1 gives an issue at
    the same place that carries no message of the schema, because the
    schema attaches the message to the upper bound only. In both cases
    nothing is built. *)
Theorem single_port_issue
    (props : Single.SingleServicePrivateECSFargateConstructProps) (p : Z) :
  (65535 < p →
   ∃ issues,
     Cdk.run
       (Single.SingleServicePrivateECSFargateConstruct
          (Vary.singlePort p props)) []
     = (inl (Cdk.ZodError issues), [])
     ∧ {| Zod.code := Zod.too_big; Zod.path := ["service"; "port"];
          Zod.message := Some "Port must be between 1 and 65535." |}
       ∈ issues)
  ∧ (p < 1 →
     ∃ issues,
       Cdk.run
         (Single.SingleServicePrivateECSFargateConstruct
            (Vary.singlePort p props)) []
       = (inl (Cdk.ZodError issues), [])
       ∧ {| Zod.code := Zod.too_small; Zod.path := ["service"; "port"];
            Zod.message := None |} ∈ issues).
Proof.
  split; intros Hp.
  - eexists. split.
    + apply Single_invalid. rewrite Single_PropsSchema_nil.
      intros (_ & _ & _ & _ & Hport & _). simpl in Hport. lia.
    + apply service_issue_in_props. by apply (port_too_big ["service"]).
  - eexists. split.
    + apply Single_invalid. rewrite Single_PropsSchema_nil.
      intros (_ & _ & _ & _ & Hport & _). simpl in Hport. lia.
    + apply service_issue_in_props. by apply (port_too_small ["service"]).
Qed.

Lemma single_port_issue_witness :
  (∃ issues,
     Cdk.run
       (Single.SingleServicePrivateECSFargateConstruct
          (Vary.singlePort 65536 Index.singleProps)) []
     = (inl (Cdk.ZodError issues), [])
     ∧ {| Zod.code := Zod.too_big; Zod.path := ["service"; "port"];
          Zod.message := Some "Port must be between 1 and 65535." |}
       ∈ issues)
  ∧ (∃ issues,
       Cdk.run
         (Single.SingleServicePrivateECSFargateConstruct
            (Vary.singlePort 0 Index.singleProps)) []
       = (inl (Cdk.ZodError issues), [])
       ∧ {| Zod.code := Zod.too_small; Zod.path := ["service"; "port"];
            Zod.message := None |} ∈ issues).
Proof.
  split.
  - apply (single_port_issue Index.singleProps 65536). lia.
  - apply (single_port_issue Index.singleProps 0). lia.
Defined.

(** ** When the planned paths are distinct *)

Section StringCancel.

Lemma list_ascii_of_string_inj (a b : string) :
  String.list_ascii_of_string a = String.list_ascii_of_string b → a = b.
Proof.
  intros H. rewrite <- (String.string_of_list_ascii_of_string a).
  rewrite <- (String.string_of_list_ascii_of_string b). by rewrite H.
Qed.

Lemma string_app_inj_r (a b s : string) : a +:+ s = b +:+ s → a = b.
Proof.
  intros H. apply list_ascii_of_string_inj.
  apply (f_equal String.list_ascii_of_string) in H.
  rewrite !list_ascii_of_string_app in H. by apply app_inv_tail in H.
Qed.

Lemma string_app_inj_l (a s t : string) : a +:+ s = a +:+ t → s = t.
Proof. apply (inj (String.app a)). Qed.

Lemma infix_inj (a b n n' s : string) :
  a +:+ b +:+ n +:+ s = a +:+ b +:+ n' +:+ s → n = n'.
Proof.
  intros H. do 2 apply string_app_inj_l in H. by apply string_app_inj_r in H.
Qed.

End StringCancel.

Ltac str_rev H :=
  apply (f_equal (λ x, rev (String.list_ascii_of_string x))) in H;
  cbv beta in H;
  rewrite ?list_ascii_of_string_app, ?rev_app_distr in H; simpl in H;
  rewrite ?list_ascii_of_string_app, ?rev_app_distr in H; simpl in H.

Ltac digit_absurd H :=
  injection H; intros; subst;
  match goal with
  | D : is_Some (Ascii.is_nat _) |- _ =>
      let x := fresh in destruct D as [x D]; vm_compute in D; discriminate D
  end.

Ltac str_absurd H :=
  exfalso; str_rev H; first [discriminate H | digit_absurd H].

Ltac some_str_absurd :=
  match goal with
  | H : @eq string _ _ |- _ => solve [str_absurd H]
  end.

Ltac same_name :=
  match goal with
  | H : @eq string _ _ |- _ =>
      first [ exact (string_app_inj_r _ _ _ H) | exact (infix_inj _ _ _ _ _ H) ]
  end.

(** From an equation between two paths: a contradiction, or the names. *)
Ltac paths_differ H :=
  simpl in H;
  first
    [ discriminate H
    | injection H; clear H; intros; first [some_str_absurd | same_name] ].

Section Distinct.
Import Cdk Multi Topology.

Lemma servicePaths_same_name props s s' p :
  p ∈ servicePaths props s → p ∈ servicePaths props s' → name s = name s'.
Proof.
  unfold servicePaths, servicePath, httpsListenerPath. cbv zeta.
  intros H1 H2.
  repeat (apply elem_of_cons in H1 as [H1|H1]);
    [..|by apply elem_of_nil in H1];
    subst p;
    (repeat (apply elem_of_cons in H2 as [H2|H2]);
     [..|by apply elem_of_nil in H2]); paths_differ H2.
Qed.

Ltac all_differ :=
  repeat (apply NoDup_cons; split;
          [rewrite ?not_elem_of_cons;
           repeat split;
           first [apply not_elem_of_nil
                 | let H := fresh in intros H; paths_differ H]|]);
  apply NoDup_nil_2.

Lemma NoDup_servicePaths props s : NoDup (servicePaths props s).
Proof.
  unfold servicePaths, servicePath, httpsListenerPath. cbv zeta. simpl.
  all_differ.
Qed.

Lemma NoDup_shared props region :
  ends_with_digit region →
  NoDup (children (sharedEntries props region)).
Proof.
  intros (r & d & -> & Hd). unfold sharedEntries, loadBalancerPath.
  cbv zeta. simpl. all_differ.
Qed.

Lemma shared_not_service props region s p :
  ends_with_digit region →
  p ∈ children (sharedEntries props region) →
  p ∉ servicePaths props s.
Proof.
  intros (r & d & -> & Hd).
  unfold sharedEntries, loadBalancerPath, servicePaths, servicePath,
    httpsListenerPath.
  cbv zeta. simpl. intros H1 H2.
  repeat (apply elem_of_cons in H1 as [H1|H1]);
    [..|by apply elem_of_nil in H1];
    subst p;
    (repeat (apply elem_of_cons in H2 as [H2|H2]);
     [..|by apply elem_of_nil in H2]); paths_differ H2.
Qed.

Lemma children_scaling_sub props s :
  children (scaling (appName props) (servicePath props s) s)
  `sublist_of`
  [ servicePath props s ++ ["TaskCount"];
    servicePath props s
    ++ ["TaskCount"; appName props +:+ "-" +:+ name s +:+ "-cpu-scaling"];
    servicePath props s
    ++ ["TaskCount";
        appName props +:+ "-" +:+ name s +:+ "-memory-scaling"] ].
Proof.
  unfold scaling. destruct (autoScalingConfig s) as [cfg|];
    [|apply sublist_nil_l].
  destruct (AutoScalingConfig.targetCpuUtilization cfg),
    (AutoScalingConfig.targetMemoryUtilization cfg); simpl;
    repeat first [apply sublist_skip; by repeat constructor
                 | apply sublist_cons | apply sublist_nil_l
                 | constructor ].
Qed.

Lemma children_serviceEntries_sub props s :
  children (serviceEntries props s) `sublist_of` servicePaths props s.
Proof.
  unfold serviceEntries, serviceCore, servicePaths. cbv zeta.
  rewrite !children_app. simpl. rewrite app_nil_r.
  do 6 apply sublist_skip. apply children_scaling_sub.
Qed.

Lemma NoDup_services props l :
  NoDup (name <$> l) →
  NoDup (children (concat (serviceEntries props <$> l)))
  ∧ ∀ p, p ∈ children (concat (serviceEntries props <$> l)) →
      ∃ s, s ∈ l ∧ p ∈ servicePaths props s.
Proof.
  induction l as [|s l IH]; intros Hnd.
  { split; [constructor|]. intros p Hp. by apply elem_of_nil in Hp. }
  change (name <$> s :: l) with (name s :: (name <$> l)) in Hnd.
  apply NoDup_cons in Hnd as [Hs Hnd]. destruct (IH Hnd) as [IH1 IH2].
  change (concat (serviceEntries props <$> s :: l))
    with (serviceEntries props s ++ concat (serviceEntries props <$> l)).
  rewrite children_app.
  pose proof (children_serviceEntries_sub props s) as Hsub.
  split.
  - apply NoDup_app. split; [|split; [|done]].
    + eapply sublist_NoDup; [apply NoDup_servicePaths|done].
    + intros p Hp Hq. apply IH2 in Hq as (s2 & Hs2 & Hq).
      apply Hs. apply list_elem_of_fmap. exists s2. split; [|exact Hs2].
      apply (servicePaths_same_name props s s2 p); [|exact Hq].
      exact (elem_of_sublist _ _ _ Hp Hsub).
  - intros p [Hp|Hp]%elem_of_app.
    + exists s. split; [left|]. exact (elem_of_sublist _ _ _ Hp Hsub).
    + apply IH2 in Hp as (s2 & Hs2 & Hp). exists s2. split; [by right|done].
Qed.

Lemma NoDup_multi props region :
  NoDup (name <$> ecsServices props) → ends_with_digit region →
  NoDup (children (multi props region)).
Proof.
  intros Hn Hr. unfold multi. rewrite children_app.
  destruct (NoDup_services props _ Hn) as [H1 H2].
  apply NoDup_app. split; [by apply NoDup_shared|]. split; [|done].
  intros p Hp Hq. apply H2 in Hq as (s & _ & Hq).
  by eapply shared_not_service.
Qed.

End Distinct.

Section Sanitized.
Import Cdk Multi Topology.

Lemma sanitizeId_app (a b : string) :
  sanitizeId (a +:+ b) = sanitizeId a +:+ sanitizeId b.
Proof.
  induction a as [|c a IH]; [done|]. simpl.
  destruct (Ascii.eqb c (Ascii.ascii_of_nat 47)); simpl; by rewrite IH.
Qed.

Lemma ends_with_digit_sanitizeId region :
  ends_with_digit region → ends_with_digit (sanitizeId region).
Proof.
  intros (r & d & -> & Hd). exists (sanitizeId r), d. split; [|done].
  rewrite sanitizeId_app. simpl.
  destruct (Ascii.eqb_spec d (Ascii.ascii_of_nat 47)) as [->|]; [|done].
  destruct Hd as [x Hx]. vm_compute in Hx. discriminate Hx.
Qed.

Ltac sanitize :=
  unfold sanitizePath; simpl; repeat (rewrite sanitizeId_app; simpl).

Lemma children_sanitized_shared props region :
  children (sharedEntries (Vary.sanitized props) (sanitizeId region))
  = sanitizePath <$> children (sharedEntries props region).
Proof.
  unfold sharedEntries, loadBalancerPath. cbv zeta. by sanitize.
Qed.

Lemma children_sanitized_service props s :
  children (serviceEntries (Vary.sanitized props) (Vary.sanitizedService s))
  = sanitizePath <$> children (serviceEntries props s).
Proof.
  unfold serviceEntries, serviceCore, scaling, servicePath,
    httpsListenerPath.
  cbv zeta. rewrite !children_app, !fmap_app.
  f_equal; [by sanitize|]. f_equal.
  simpl. destruct (autoScalingConfig s) as [cfg|]; [|done].
  destruct (AutoScalingConfig.targetCpuUtilization cfg),
    (AutoScalingConfig.targetMemoryUtilization cfg); by sanitize.
Qed.

Lemma children_sanitized props region :
  children (multi (Vary.sanitized props) (sanitizeId region))
  = sanitizePath <$> children (multi props region).
Proof.
  unfold multi. rewrite !children_app, fmap_app, children_sanitized_shared.
  f_equal. simpl. induction (ecsServices props) as [|s l IH]; [done|].
  change (children
            (serviceEntries (Vary.sanitized props) (Vary.sanitizedService s)
             ++ concat
                  (serviceEntries (Vary.sanitized props)
                   <$> (Vary.sanitizedService <$> l)))
          = sanitizePath
            <$> children
                  (serviceEntries props s
                   ++ concat (serviceEntries props <$> l))).
  by rewrite !children_app, fmap_app, IH, children_sanitized_service.
Qed.

(** Names that stay distinct when their ids are rewritten keep all the
    ids of the topology distinct, before and after the rewriting. *)
Lemma NoDup_sanitized props region :
  NoDup ((λ s, sanitizeId (name s)) <$> ecsServices props) →
  ends_with_digit region →
  NoDup (name <$> ecsServices props)
  ∧ NoDup (sanitizePath <$> children (multi props region)).
Proof.
  intros Hn Hr. split.
  - apply (NoDup_fmap_1 sanitizeId). by rewrite <- list_fmap_compose.
  - rewrite <- children_sanitized. apply NoDup_multi.
    + simpl. by rewrite <- list_fmap_compose.
    + by apply ends_with_digit_sanitizeId.
Qed.

End Sanitized.

(** X16: the ids that the constructor derives from the application name,
    the environment tag, the region and the service names do not clash. If
    the service names are pairwise different, also after the [constructs]
    library has replaced each "/" of an id by "--", and the region name
    ends with a digit, then no two constructs of the topology get the same
    id, before or after that replacement. With the error for an id that is
    already taken as the only error of the library, a topology that passes
    the schema is then accepted: the constructor returns and leaves the
    planned topology. *)
Theorem multi_returns_for_distinct_names
    (props : Multi.MultiServiceECSFargateLoadBalancedConstructProps)
    (region : string) :
  Multi.MultiServiceECSFargateLoadBalancedConstructPropsSchema [] props = [] →
  NoDup ((λ s, Topology.sanitizeId (Multi.name s))
         <$> Multi.ecsServices props) →
  Topology.ends_with_digit region →
  NoDup (Topology.sanitizePath
         <$> Cdk.children (Topology.multi props region))
  ∧ Cdk.run (Multi.MultiServiceECSFargateLoadBalancedConstruct props region)
      []
    = (inr (), Topology.multi props region).
Proof.
  intros Hv Hn Hr. destruct (NoDup_sanitized props region Hn Hr) as [H1 H2].
  split; [done|]. rewrite Multi_run, Hv.
  apply register_children_fresh; [by apply NoDup_multi|].
  intros p _ Hp. by apply elem_of_nil in Hp.
Qed.

Lemma multi_returns_for_distinct_names_witness :
  NoDup (Topology.sanitizePath
         <$> Cdk.children (Topology.multi Index.multiProps "us-east-1"))
  ∧ Cdk.run
      (Multi.MultiServiceECSFargateLoadBalancedConstruct Index.multiProps
         "us-east-1") []
    = (inr (), Topology.multi Index.multiProps "us-east-1").
Proof.
  apply (multi_returns_for_distinct_names Index.multiProps "us-east-1").
  - reflexivity.
  - apply (bool_decide_unpack _). vm_compute. exact I.
  - exists "us-east-", (Ascii.ascii_of_nat 49).
    split; [reflexivity|]. exists 1%nat. reflexivity.
Defined.

(** ** The ingress rules of the service security groups *)

Section ServiceIngress.
Import Cdk Multi Topology View.

Lemma rules_on_app group t1 t2 :
  rules_on group (t1 ++ t2) = rules_on group t1 ++ rules_on group t2.
Proof. apply omap_app. Qed.

Lemma rules_on_scaling group app service s :
  rules_on group (scaling app service s) = [].
Proof.
  unfold scaling. destruct (autoScalingConfig s) as [cfg|]; [|done].
  by destruct (AutoScalingConfig.targetCpuUtilization cfg),
    (AutoScalingConfig.targetMemoryUtilization cfg).
Qed.

(** One turn of the loop gives a rule to the security group of its own
    service only. *)
Lemma rules_on_serviceEntries props s n :
  rules_on [n +:+ "-security-group"] (serviceEntries props s)
  = if bool_decide (name s = n)
    then [{| peer := SecurityGroupOf (loadBalancerPath props);
             tcp := port s;
             ruleDescription := "Allow traffic from the load balancer" |}]
    else [].
Proof.
  unfold serviceEntries, serviceCore. cbv zeta.
  rewrite !rules_on_app, rules_on_scaling. simpl.
  repeat case_bool_decide; simplify_eq; try done.
  match goal with
  | H : _ +:+ _ = _ +:+ _ |- _ => apply string_app_inj_r in H
  end.
  done.
Qed.

Lemma rules_on_other_names props l n :
  n ∉ name <$> l →
  rules_on [n +:+ "-security-group"] (concat (serviceEntries props <$> l))
  = [].
Proof.
  induction l as [|x l IH]; intros Hn; [done|].
  change (concat (serviceEntries props <$> x :: l))
    with (serviceEntries props x ++ concat (serviceEntries props <$> l)).
  change (name <$> x :: l) with (name x :: (name <$> l)) in Hn.
  apply not_elem_of_cons in Hn as [Hx Hn].
  rewrite rules_on_app, rules_on_serviceEntries, IH by done.
  by rewrite bool_decide_eq_false_2 by congruence.
Qed.

Lemma rules_on_services props l s :
  NoDup (name <$> l) → s ∈ l →
  rules_on [name s +:+ "-security-group"]
    (concat (serviceEntries props <$> l))
  = [{| peer := SecurityGroupOf (loadBalancerPath props);
        tcp := port s;
        ruleDescription := "Allow traffic from the load balancer" |}].
Proof.
  induction l as [|x l IH]; intros Hnd Hs; [by apply elem_of_nil in Hs|].
  change (concat (serviceEntries props <$> x :: l))
    with (serviceEntries props x ++ concat (serviceEntries props <$> l)).
  change (name <$> x :: l) with (name x :: (name <$> l)) in Hnd.
  apply NoDup_cons in Hnd as [Hx Hnd].
  rewrite rules_on_app, rules_on_serviceEntries.
  apply elem_of_cons in Hs as [->|Hs].
  - rewrite bool_decide_eq_true_2 by done.
    by rewrite rules_on_other_names.
  - rewrite bool_decide_eq_false_2, IH; [done..|].
    intros E. apply Hx. rewrite E. by apply list_elem_of_fmap_2.
Qed.

Lemma task_definition_first props s :
  [name s +:+ "-task-definition"] ∈ children (serviceEntries props s).
Proof.
  unfold serviceEntries, serviceCore. cbv zeta.
  rewrite children_app. simpl. left.
Qed.

Lemma task_definition_planned props l s :
  s ∈ l →
  [name s +:+ "-task-definition"]
  ∈ children (concat (serviceEntries props <$> l)).
Proof.
  induction l as [|x l IH]; intros Hs; [by apply elem_of_nil in Hs|].
  change (concat (serviceEntries props <$> x :: l))
    with (serviceEntries props x ++ concat (serviceEntries props <$> l)).
  rewrite children_app, elem_of_app.
  apply elem_of_cons in Hs as [->|Hs]; [left|right; by apply IH].
  apply task_definition_first.
Qed.

(** Services whose constructs have distinct paths have distinct names. *)
Lemma NoDup_names props l :
  NoDup (children (concat (serviceEntries props <$> l))) →
  NoDup (name <$> l).
Proof.
  induction l as [|x l IH]; intros Hnd; [constructor|].
  change (concat (serviceEntries props <$> x :: l))
    with (serviceEntries props x ++ concat (serviceEntries props <$> l))
    in Hnd.
  rewrite children_app in Hnd.
  apply NoDup_app in Hnd as (_ & Hd & Hnd).
  change (name <$> x :: l) with (name x :: (name <$> l)).
  apply NoDup_cons. split; [|by apply IH].
  intros (s & E & Hs)%list_elem_of_fmap.
  apply (Hd [name x +:+ "-task-definition"]).
  - apply task_definition_first.
  - rewrite E. by apply task_definition_planned.
Qed.

Lemma Multi_inr_names props region t :
  run (MultiServiceECSFargateLoadBalancedConstruct props region) []
  = (inr (), t) →
  NoDup (name <$> ecsServices props).
Proof.
  rewrite Multi_run.
  destruct (MultiServiceECSFargateLoadBalancedConstructPropsSchema []
              props); [|done].
  intros (_ & Hnd & _)%register_inr.
  unfold multi in Hnd. rewrite children_app in Hnd.
  apply NoDup_app in Hnd as (_ & _ & Hnd). by eapply NoDup_names.
Qed.

End ServiceIngress.

(** X4: in an accepted multi-service topology the constructor gives the
    security group of each service exactly one ingress rule: its source is
    the security group of the load balancer and its port is the port of the
    service. The constructor opens no security group of a service to an
    address range. *)
Theorem multi_ingress_only_from_load_balancer
    (props : Multi.MultiServiceECSFargateLoadBalancedConstructProps)
    (region : string) (t : Cdk.Tree) (s : Multi.ECSServiceConfig) :
  Cdk.run (Multi.MultiServiceECSFargateLoadBalancedConstruct props region) []
  = (inr (), t) →
  s ∈ Multi.ecsServices props →
  View.rules_on [Multi.name s +:+ "-security-group"] t
  = [ {| Cdk.peer := Cdk.SecurityGroupOf (Topology.loadBalancerPath props);
         Cdk.tcp := Multi.port s;
         Cdk.ruleDescription := "Allow traffic from the load balancer" |} ].
Proof.
  intros H Hs. pose proof (Multi_inr_names _ _ _ H) as Hnd.
  apply Multi_inr_plan in H as ->. unfold Topology.multi.
  rewrite rules_on_app. simpl. by apply rules_on_services.
Qed.

Lemma multi_ingress_only_from_load_balancer_witness :
  View.rules_on ["payment-service-security-group"]
    (snd (Cdk.run
            (Multi.MultiServiceECSFargateLoadBalancedConstruct
               Index.multiProps "us-east-1") []))
  = [ {| Cdk.peer := Cdk.SecurityGroupOf ["my-app-dev-load-balancer"];
         Cdk.tcp := 8081;
         Cdk.ruleDescription := "Allow traffic from the load balancer" |} ].
Proof.
  apply (multi_ingress_only_from_load_balancer Index.multiProps "us-east-1" _
           Index.paymentService).
  - vm_compute. reflexivity.
  - right. left.
Defined.

(** ** How the resources of a topology fit together *)

Section Wiring.
Import Cdk Multi Topology.

Lemma core_in_multi props region s e :
  s ∈ ecsServices props → e ∈ serviceCore props s →
  e ∈ multi props region.
Proof.
  intros Hs He. unfold multi. apply elem_of_app. right.
  induction (ecsServices props) as [|x l IH];
    [by apply elem_of_nil in Hs|].
  change (concat (serviceEntries props <$> x :: l))
    with (serviceEntries props x ++ concat (serviceEntries props <$> l)).
  apply elem_of_app. apply elem_of_cons in Hs as [->|Hs].
  - left. unfold serviceEntries. apply elem_of_app. by left.
  - right. by apply IH.
Qed.

Lemma shared_in_multi props region e :
  e ∈ sharedEntries props region → e ∈ multi props region.
Proof. intros He. unfold multi. apply elem_of_app. by left. Qed.

End Wiring.

(** X18: in an accepted multi-service topology the port of a service is used
    all the way: its container maps that port, the ingress rule of its
    security group opens that port, and its target group forwards to that
    port; the target group targets the Fargate service of that service,
    which runs the task definition holding the container and sits in the
    security group of the ingress rule. *)
Theorem multi_service_wiring
    (props : Multi.MultiServiceECSFargateLoadBalancedConstructProps)
    (region : string) (t : Cdk.Tree) (s : Multi.ECSServiceConfig) :
  Cdk.run (Multi.MultiServiceECSFargateLoadBalancedConstruct props region) []
  = (inr (), t) →
  s ∈ Multi.ecsServices props →
  let taskDefinition := [Multi.name s +:+ "-task-definition"] in
  let securityGroup := [Multi.name s +:+ "-security-group"] in
  ∃ container service rule targetGroup,
    Cdk.Child (taskDefinition ++ [Multi.name s +:+ "-container"])
      (Cdk.ContainerDefinition container) ∈ t
    ∧ Cdk.portMappings container = [Multi.port s]
    ∧ Cdk.Ingress securityGroup rule ∈ t
    ∧ Cdk.tcp rule = Multi.port s
    ∧ Cdk.Child (Multi.servicePath props s) (Cdk.FargateService service) ∈ t
    ∧ Cdk.taskDefinition service = taskDefinition
    ∧ Cdk.securityGroups service = [securityGroup]
    ∧ Cdk.desiredCount service = Multi.desiredCount s
    ∧ Cdk.Child
        (Multi.httpsListenerPath props
         ++ [Multi.appName props +:+ "-" +:+ Multi.name s +:+ "-tg"])
        (Cdk.ApplicationTargetGroup targetGroup) ∈ t
    ∧ Cdk.port targetGroup = Multi.port s
    ∧ Cdk.targets targetGroup = [Multi.servicePath props s].
Proof.
  intros ->%Multi_inr_plan Hs. cbv zeta.
  do 4 eexists.
  repeat split;
    try (apply (core_in_multi props region s); [done|];
         unfold Topology.serviceCore; cbv zeta;
         rewrite !elem_of_cons; auto 20);
    reflexivity.
Qed.

Lemma multi_service_wiring_witness :
  let t :=
    snd (Cdk.run
           (Multi.MultiServiceECSFargateLoadBalancedConstruct Index.multiProps
              "us-east-1") []) in
  ∃ container service rule targetGroup,
    Cdk.Child ["payment-service-task-definition"; "payment-service-container"]
      (Cdk.ContainerDefinition container) ∈ t
    ∧ Cdk.portMappings container = [8081]
    ∧ Cdk.Ingress ["payment-service-security-group"] rule ∈ t
    ∧ Cdk.tcp rule = 8081
    ∧ Cdk.Child ["my-app-payment-service-service"]
        (Cdk.FargateService service) ∈ t
    ∧ Cdk.taskDefinition service = ["payment-service-task-definition"]
    ∧ Cdk.securityGroups service = [["payment-service-security-group"]]
    ∧ Cdk.desiredCount service = 2
    ∧ Cdk.Child
        ["my-app-dev-load-balancer"; "my-app-https-listener";
         "my-app-payment-service-tg"]
        (Cdk.ApplicationTargetGroup targetGroup) ∈ t
    ∧ Cdk.port targetGroup = 8081
    ∧ Cdk.targets targetGroup = [["my-app-payment-service-service"]].
Proof.
  apply (multi_service_wiring Index.multiProps "us-east-1" _
           Index.paymentService).
  - vm_compute. reflexivity.
  - right. left.
Defined.

(** X19: in an accepted multi-service topology the name of the alias
    record, [<apiSubdomainName>.<domainName>], is a subject alternative name
    of the certificate, the HTTPS listener on port 443 serves exactly that
    certificate, the record points at the load balancer of the listeners,
    and the listener on port 80 only redirects to HTTPS on port 443. *)
Theorem multi_https_wiring
    (props : Multi.MultiServiceECSFargateLoadBalancedConstructProps)
    (region : string) (t : Cdk.Tree) :
  Cdk.run (Multi.MultiServiceECSFargateLoadBalancedConstruct props region) []
  = (inr (), t) →
  let certificate := [Multi.appName props +:+ "-ssl-certificate"] in
  let loadBalancer := Topology.loadBalancerPath props in
  ∃ domain zone names recordName policy response,
    Cdk.Child certificate (Cdk.Certificate domain zone names) ∈ t
    ∧ Cdk.Child [Multi.appName props +:+ "-alias-record-" +:+ region]
        (Cdk.ARecord zone loadBalancer recordName) ∈ t
    ∧ recordName
      = Multi.apiSubdomainName props +:+ "." +:+ Multi.domainName props
    ∧ recordName ∈ names
    ∧ Cdk.Child (loadBalancer ++ [Multi.appName props +:+ "-https-listener"])
        (Cdk.ApplicationListener 443 [certificate] policy response) ∈ t
    ∧ Cdk.Child (loadBalancer ++ [Multi.appName props +:+ "-http-listener"])
        (Cdk.ApplicationListener 80 [] None (Cdk.redirect "HTTPS" "443"))
      ∈ t.
Proof.
  intros ->%Multi_inr_plan. cbv zeta.
  do 6 eexists.
  repeat split;
    try (apply shared_in_multi; unfold Topology.sharedEntries; cbv zeta;
         rewrite !elem_of_cons; auto 20).
  by left.
Qed.

Lemma multi_https_wiring_witness :
  let t :=
    snd (Cdk.run
           (Multi.MultiServiceECSFargateLoadBalancedConstruct Index.multiProps
              "us-east-1") []) in
  ∃ domain zone names recordName policy response,
    Cdk.Child ["my-app-ssl-certificate"]
      (Cdk.Certificate domain zone names) ∈ t
    ∧ Cdk.Child ["my-app-alias-record-us-east-1"]
        (Cdk.ARecord zone ["my-app-dev-load-balancer"] recordName) ∈ t
    ∧ recordName = "api.example.com"
    ∧ recordName ∈ names
    ∧ Cdk.Child ["my-app-dev-load-balancer"; "my-app-https-listener"]
        (Cdk.ApplicationListener 443 [["my-app-ssl-certificate"]] policy
           response) ∈ t
    ∧ Cdk.Child ["my-app-dev-load-balancer"; "my-app-http-listener"]
        (Cdk.ApplicationListener 80 [] None (Cdk.redirect "HTTPS" "443"))
      ∈ t.
Proof.
  apply (multi_https_wiring Index.multiProps "us-east-1").
  vm_compute. reflexivity.
Defined.
